(** * LexUse: the candidate-selection and exclusion workflow of [util.py]

    A shallow embedding of the functions of [src/util.py] and the properties
    stated about them.  Python values are modelled as follows.

    - [str] is [string]; every character is one code point below 256, so
      [len] is [String.length].
    - [None]-able arguments are [option]s.
    - A call that can end the process ([exit]) or raise is a computation in
      the monad [M]: it takes the mutable part of the program's surroundings
      (a [world]) and gives an [outcome] and the world it leaves behind.
    - The services the program talks to (the SPARQL endpoint, the write API,
      the clock, the operator's keyboard) are the fields of an
      [environment]; every call is recorded in the [log] of the world.
    - [logging.debug] lines go to the logging subsystem only and are left
      out of the log. *)

From stdpp Require Import gmap strings list pretty sorting.
From Stdlib Require Import ZArith Ascii.

#[local] Set Warnings "-register-all".
#[local] Open Scope string_scope.

(** ** Strings *)

Module Str.

Definition dquote : string := String "034"%char EmptyString.
Definition newline : string := String "010"%char EmptyString.

(** Characters removed by [str.strip()]: the code points below 256 for
    which [str.isspace] holds. *)
Definition is_space (c : ascii) : bool :=
  let n := nat_of_ascii c in
  ((9 <=? n)%nat && (n <=? 13)%nat) || ((28 <=? n)%nat && (n <=? 32)%nat)
  || (n =? 133)%nat || (n =? 160)%nat.

Fixpoint lstrip (s : string) : string :=
  match s with
  | EmptyString => EmptyString
  | String c s' => if is_space c then lstrip s' else s
  end.

(** [rstrip] drops the trailing white space: a character is kept when it is
    not white space or when something is kept after it. *)
Fixpoint rstrip (s : string) : string :=
  match s with
  | EmptyString => EmptyString
  | String c s' =>
      match rstrip s' with
      | EmptyString => if is_space c then EmptyString else String c EmptyString
      | t => String c t
      end
  end.

Definition strip (s : string) : string := rstrip (lstrip s).

(** [s.split(" ")]: the pieces between single spaces, empty pieces kept. *)
Fixpoint split_space (s : string) : list string :=
  match s with
  | EmptyString => [EmptyString]
  | String c s' =>
      if Ascii.eqb c " "%char then EmptyString :: split_space s'
      else match split_space s' with
           | piece :: pieces => String c piece :: pieces
           | [] => [String c EmptyString]
           end
  end.

(** [s.replace(old, new)] for a non-empty [old]: occurrences are replaced
    from the left and do not overlap.  [skip] counts the characters of an
    occurrence that are still to be dropped. *)
Fixpoint replace_from (old new s : string) (skip : nat) : string :=
  match s with
  | EmptyString => EmptyString
  | String c s' =>
      match skip with
      | S k => replace_from old new s' k
      | O =>
          if String.prefix old s
          then new +:+ replace_from old new s' (String.length old - 1)
          else String c (replace_from old new s' 0)
      end
  end.

Definition replace (old new s : string) : string := replace_from old new s 0.

(** [c.lower()] for the letters the prompts look at. *)
Definition lower (c : ascii) : ascii :=
  let n := nat_of_ascii c in
  if (65 <=? n)%nat && (n <=? 90)%nat then ascii_of_nat (n + 32) else c.

Definition first_lower_in (answer : string) (allowed : list ascii) : bool :=
  match answer with
  | EmptyString => false
  | String c _ => bool_decide (lower c ∈ allowed)
  end.

Definition first_lower_is (answer : string) (c : ascii) : bool :=
  first_lower_in answer [c].

Definition is_digit (c : ascii) : bool :=
  let n := nat_of_ascii c in (48 <=? n)%nat && (n <=? 57)%nat.

(** The digits of [int(text)]: decimal digits, single underscores allowed
    between two digits. *)
Fixpoint digits_value (acc : Z) (after_digit : bool) (cs : string) : option Z :=
  match cs with
  | EmptyString => if after_digit then Some acc else None
  | String c cs' =>
      if is_digit c
      then digits_value (10 * acc + Z.of_nat (nat_of_ascii c - 48)) true cs'
      else if Ascii.eqb c "_"%char
           then (if after_digit then digits_value acc false cs' else None)
           else None
  end.

(** The white space [int] skips in front of and behind a number: tab,
    newline, vertical tab, form feed, carriage return and space, and the
    two code points from 128 on for which [str.isspace] holds.  The code
    points 28 to 31, which [str.strip] removes, are not among them. *)
Definition is_int_space (c : ascii) : bool :=
  let n := nat_of_ascii c in
  ((9 <=? n)%nat && (n <=? 13)%nat) || (n =? 32)%nat
  || (n =? 133)%nat || (n =? 160)%nat.

Fixpoint int_lstrip (s : string) : string :=
  match s with
  | EmptyString => EmptyString
  | String c s' => if is_int_space c then int_lstrip s' else s
  end.

Fixpoint int_rstrip (s : string) : string :=
  match s with
  | EmptyString => EmptyString
  | String c s' =>
      match int_rstrip s' with
      | EmptyString =>
          if is_int_space c then EmptyString else String c EmptyString
      | t => String c t
      end
  end.

Definition int_strip (s : string) : string := int_rstrip (int_lstrip s).

(** [int(text)]: [None] stands for [ValueError]. *)
Definition python_int (text : string) : option Z :=
  match int_strip text with
  | String "+"%char ds => digits_value 0 false ds
  | String "-"%char ds => Z.opp <$> digits_value 0 false ds
  | ds => digits_value 0 false ds
  end.

(** [[0-9]*] at the front of a text: what is left behind the digits. *)
Fixpoint skip_digits (s : string) : string :=
  match s with
  | EmptyString => EmptyString
  | String c s' => if is_digit c then skip_digits s' else s
  end.

(** [[0-9]+] at the front of a text. *)
Definition digits_then (s : string) : option string :=
  match s with
  | EmptyString => None
  | String c s' => if is_digit c then Some (skip_digits s') else None
  end.

(** [re.match(pattern, s)] for the pattern [^L[0-9]+-X[0-9]+$], [X] being
    [letter]; [$] also matches in front of a newline that ends the text. *)
Definition is_part_id (letter : ascii) (s : string) : bool :=
  match s with
  | String "L"%char rest =>
      match digits_then rest with
      | Some (String "-"%char (String x rest')) =>
          Ascii.eqb x letter
          && match digits_then rest' with
             | Some EmptyString => true
             | Some (String "010"%char EmptyString) => true
             | _ => false
             end
      | _ => false
      end
  | _ => false
  end.

End Str.

(** [count_words]: [len(string.strip().split(" "))]. *)
Definition count_words (s : string) : nat :=
  length (Str.split_space (Str.strip s)).

(** ** Outcomes and exceptions *)

Inductive exn :=
| KeyError (key : string)
| TypeError
| IndexError
| ValueError
| AttributeError
| EOFError
| JSONDecodeError
| LibraryError (origin : string).

(** How a call ends: it returns, it calls [exit(code)], or it raises. *)
Inductive outcome (A : Type) :=
| Returns (a : A)
| Exits (code : Z)
| Raises (e : exn).
Arguments Returns {A} a.
Arguments Exits {A} code.
Arguments Raises {A} e.

(** The exit status of the process when an outcome reaches the top level
    with nothing to catch it: [exit(code)] gives [code], and an exception
    that nobody catches makes the interpreter print the traceback and end
    with status 1.  [util.py] has one [try], around [int(input(..))], and it
    catches [ValueError] only. *)
Definition exit_status {A} (o : outcome A) : option Z :=
  match o with
  | Returns _ => None
  | Exits code => Some code
  | Raises _ => Some 1%Z
  end.

Definition obind {A B} (o : outcome A) (k : A -> outcome B) : outcome B :=
  match o with
  | Returns a => k a
  | Exits code => Exits code
  | Raises e => Raises e
  end.

Notation "x <~ o ;; k" := (obind o (fun x => k))
  (at level 100, o at next level, right associativity).

(** What an external service gives back. *)
Inductive reply (A : Type) :=
| Answer (a : A)
| Failure (e : exn).
Arguments Answer {A} a.
Arguments Failure {A} e.

(** ** JSON documents and the backing file *)

(** The values [json.loads] produces.  A Python [dict] with [str] keys is a
    finite map; a float keeps its literal. *)
Inductive json :=
| JNull
| JBool (b : bool)
| JInt (z : Z)
| JFloat (literal : string)
| JStr (s : string)
| JArr (xs : list json)
| JObj (m : gmap string json).

(** The content of [exclude_list.json] as the program can tell it apart:
    no characters at all; some characters that [json.loads] rejects; or a
    text that [json.loads] reads as the value [v].  [json.dump v] writes a
    text of the third kind for the same [v], and [json.loads] rejects the
    empty text. *)
Inductive file_text :=
| Empty
| Malformed
| Document (v : json).

(** [len(json_data) > 0] *)
Definition nonempty (t : file_text) : bool :=
  match t with Empty => false | _ => true end.

Definition json_loads (t : file_text) : outcome json :=
  match t with
  | Document v => Returns v
  | Empty | Malformed => Raises JSONDecodeError
  end.

(** ** Data of the workflow *)

(** A row of a SPARQL result: variable name to binding, a binding being a
    dictionary with a ["value"] entry among others. *)
Abbreviation row := (gmap string (gmap string string)).

(** The dictionary built by [extract_data]. *)
Record lexform := {
  lid : string;
  form_id : string;
  word : string;
  word_spaces : string;
  word_angle_parens : string;
  category : string
}.

(** One entry of the dictionary numbered from 1 that [fetch_senses] builds;
    the dictionary is the list of its entries, entry [n] at position
    [n - 1]. *)
Record sense := {
  sense_id : string;
  gloss : string
}.

(** What [prompt_sense_approval] returns when a sense is chosen. *)
Record selected := {
  sel_sense_id : string;
  sel_sense_gloss : string
}.

(** Value of the mapping of candidate sentences. *)
Record result_data := {
  document_id : option string;
  date : option string
}.

(** The mapping sentence -> result data, in insertion order. *)
Abbreviation batch := (list (string * result_data)).

(** The statement [add_usage_example] assembles: the monolingual text with
    its two qualifiers and one reference group. *)
Record usage_claim := {
  claim_text : option string;
  claim_language : string;
  claim_form : option string;           (* P5830 *)
  claim_sense : option string;          (* P6072 *)
  ref_stated_in : string;               (* P248 *)
  ref_document : option string;         (* P8433 *)
  ref_retrieved : string;               (* P813 *)
  ref_published : string                (* P577 *)
}.

(** [wbi_core.ItemEngine(data=[claim], append_value=["P5831"], item_id=lid)] *)
Record item := {
  item_claim : usage_claim;
  item_append : list string;
  item_id : option string
}.

(** ** The surroundings *)

Inductive event :=
| Printed (text : string)
| Asked (prompt : string) (answer : option string)
| Slept (seconds : nat)
| Queried (query : string)
| Searched (data : lexform)
| LoggedIn (user : string)
| Wrote (it : item) (summary : string)
| TokenRequested
| Watched (titles : string).

(** The mutable part: the backing file (absent, or its text), the lines
    the operator is still going to type, [config.login_instance], and
    everything done so far, oldest first. *)
Record world := {
  disk : option file_text;
  stdin : list string;
  login_instance : option nat;
  log : list event
}.

(** The settings of module [config], which is not part of [util.py]. *)
Class config := {
  language : string;
  language_code : string;
  language_qid : string;
  sparql_results_size : Z;
  sparql_offset : Z;
  username : string;
  password : string;
  debug_json : bool;
  debug_sentences : bool
}.

(** The services.  Each answer may depend on everything that happened
    before the call. *)
Class environment := {
  (** [httpx.get(url, params).json()["results"]["bindings"]] *)
  endpoint : list event -> string -> reply (list row);
  (** Modelled from the spec: [riksdagen.get_records], the corpus search
      collaborator of another module; it "returns a mapping of candidate
      sentence text to {sourceDocumentId, publicationDate}; may return an
      empty mapping". *)
  get_records : list event -> lexform -> batch;
  (** [datetime.now().isoformat()] *)
  now_isoformat : list event -> string;
  (** [datetime.utcnow()] printed with ["%Y-%m-%d"] *)
  utc_today : list event -> string;
  (** [datetime.fromisoformat(text)] printed with ["%Y-%m-%d"];
      [None] stands for [ValueError]. *)
  fromisoformat : string -> option string;
  (** [wbi_login.Login(user, pwd)] *)
  wbi_login : list event -> string -> string -> reply nat;
  (** [item.write(login, edit_summary)] *)
  wbi_write : list event -> nat -> item -> string -> reply string;
  (** [item.get_json_representation()] as printed *)
  item_json : item -> string;
  (** the token of [session.get(url, params_token)] *)
  watch_token : list event -> nat -> reply string;
  (** the text of [session.post(url, data=params_watch)] *)
  watch_post : list event -> nat -> string -> string -> reply string
}.

(** ** The monad of calls *)

Definition M (A : Type) : Type := world -> outcome A * world.

Definition ret {A} (a : A) : M A := fun w => (Returns a, w).

Definition bind {A B} (c : M A) (k : A -> M B) : M B :=
  fun w =>
    match c w with
    | (Returns a, w') => k a w'
    | (Exits code, w') => (Exits code, w')
    | (Raises e, w') => (Raises e, w')
    end.

Notation "x <- c ;; k" := (bind c (fun x => k))
  (at level 100, c at next level, right associativity).
Notation "c ;;; k" := (bind c (fun _ => k))
  (at level 100, right associativity).

Definition exit {A} (code : Z) : M A := fun w => (Exits code, w).
Definition raise {A} (e : exn) : M A := fun w => (Raises e, w).

Definition lift {A} (o : outcome A) : M A := fun w => (o, w).

Definition record (e : event) (w : world) : world :=
  {| disk := disk w; stdin := stdin w;
     login_instance := login_instance w; log := log w ++ [e] |}.

Definition set_disk (d : option file_text) (w : world) : world :=
  {| disk := d; stdin := stdin w;
     login_instance := login_instance w; log := log w |}.

Definition set_stdin (lines : list string) (w : world) : world :=
  {| disk := disk w; stdin := lines;
     login_instance := login_instance w; log := log w |}.

Definition set_login (l : option nat) (w : world) : world :=
  {| disk := disk w; stdin := stdin w; login_instance := l; log := log w |}.

Definition emit (e : event) : M unit := fun w => (Returns tt, record e w).

Definition print (text : string) : M unit := emit (Printed text).

Definition sleep (seconds : nat) : M unit := emit (Slept seconds).

Definition when (b : bool) (c : M unit) : M unit := if b then c else ret tt.

(** Python truthiness of the values tested with [if result:]. *)
Definition truthy_str (s : string) : bool :=
  match s with EmptyString => false | _ => true end.

(** What a Python function gives back when it returns either [False] or a
    text (the result of [item.write]). *)
Inductive pyresult :=
| PFalse
| PText (s : string).

Definition truthy (r : pyresult) : bool :=
  match r with PFalse => false | PText s => truthy_str s end.

(** [str(x)] of a value that may be [None], as an f-string prints it. *)
Definition show_opt (o : option string) : string :=
  match o with Some s => s | None => "None" end.

Fixpoint unlines (ls : list string) : string :=
  match ls with
  | [] => EmptyString
  | [l] => l
  | l :: rest => l +:+ Str.newline +:+ unlines rest
  end.

(** [sorted(xs, key=key)]: a stable sort, ascending in [key]; an element
    goes in front of the first later element whose key is not smaller. *)
Fixpoint insert_by {A} (key : A -> nat) (x : A) (l : list A) : list A :=
  match l with
  | [] => [x]
  | y :: l' => if (key x <=? key y)%nat then x :: y :: l'
               else y :: insert_by key x l'
  end.

Definition py_sorted {A} (key : A -> nat) (l : list A) : list A :=
  foldr (insert_by key) [] l.

(** [mapping[key]] on a mapping kept in insertion order. *)
Fixpoint getitem {V} (mapping : list (string * V)) (key : string) : outcome V :=
  match mapping with
  | [] => Raises (KeyError key)
  | (k, v) :: rest => if String.eqb k key then Returns v else getitem rest key
  end.

(** ** The functions of [util.py] *)

Definition wd_prefix : string := "http://www.wikidata.org/entity/".

(** The value of a qualifier that links to a part of a lexeme:
    [wbi_core.Form(value=..)] and [wbi_core.Sense(value=..)] take [None] or
    an identifier of the shape [L<digits>-F<digits>] ([-S] for a sense), and
    raise [ValueError] for any other text. *)
Definition wbi_part (letter : ascii) (value : option string)
  : outcome (option string) :=
  match value with
  | None => Returns None
  | Some s =>
      if Str.is_part_id letter s then Returns (Some s) else Raises ValueError
  end.

Definition wbi_form : option string -> outcome (option string) :=
  wbi_part "F"%char.

Definition wbi_sense : option string -> outcome (option string) :=
  wbi_part "S"%char.

Section Model.
Context {cfg : config} {env : environment}.

(** [input(prompt)]: the next line the operator types; [EOFError] when the
    input has ended. *)
Definition input (prompt : string) : M string := fun w =>
  match stdin w with
  | [] => (Raises EOFError, record (Asked prompt None) w)
  | answer :: rest =>
      (Returns answer, record (Asked prompt (Some answer)) (set_stdin rest w))
  end.

(** The [while True] of [yes_no_skip_question], one turn per line typed:
    [True], [False], or [None] for skip. *)
Fixpoint yes_no_skip_loop (prompt : string) (lines : list string) (w : world)
  : outcome (option bool) * world :=
  match lines with
  | [] => (Raises EOFError, record (Asked prompt None) w)
  | answer :: rest =>
      let w' := record (Asked prompt (Some answer)) (set_stdin rest w) in
      if (String.length answer =? 0)%nat
         || Str.first_lower_in answer ["y"; "n"; "s"]%char
      then
        if (String.length answer =? 0)%nat then (Returns (Some true), w')
        else if Str.first_lower_is answer "s"%char then (Returns None, w')
        else (Returns (Some (Str.first_lower_is answer "y"%char)), w')
      else yes_no_skip_loop prompt rest w'
  end.

Definition yes_no_skip_question (message : string) : M (option bool) := fun w =>
  yes_no_skip_loop (message +:+ " [(Y)es/(n)o/(s)kip this form]: ") (stdin w) w.

Fixpoint yes_no_loop (prompt : string) (lines : list string) (w : world)
  : outcome bool * world :=
  match lines with
  | [] => (Raises EOFError, record (Asked prompt None) w)
  | answer :: rest =>
      let w' := record (Asked prompt (Some answer)) (set_stdin rest w) in
      if (String.length answer =? 0)%nat
         || Str.first_lower_in answer ["y"; "n"]%char
      then
        if (String.length answer =? 0)%nat then (Returns true, w')
        else (Returns (Str.first_lower_is answer "y"%char), w')
      else yes_no_loop prompt rest w'
  end.

Definition yes_no_question (message : string) : M bool := fun w =>
  yes_no_loop (message +:+ " [Y/n]: ") (stdin w) w.

(** [sparql_query]: an empty result ends the process with status 0. *)
Definition sparql_query (query : string) : M (list row) := fun w =>
  let w' := record (Queried query) w in
  match endpoint (log w) query with
  | Failure e => (Raises e, w')
  | Answer results =>
      if (length results =? 0)%nat
      then (print ("No " +:+ language +:+ " lexemes containing " +:+
                   "both a sense, forms with " +:+
                   "grammatical features and missing a usage example was found")
            ;;; exit 0) w'
      else (Returns results, w')
  end.

(** [result[var]["value"]] *)
Definition binding (result : row) (var : string) : outcome string :=
  match result !! var with
  | None => Raises (KeyError var)
  | Some b =>
      match b !! "value" with
      | None => Raises (KeyError "value")
      | Some v => Returns v
      end
  end.

Definition count_query (lid : string) : string :=
  unlines [
    EmptyString;
    "    SELECT";
    "    (COUNT(?sense) as ?count)";
    "    WHERE {";
    "      VALUES ?l {wd:" +:+ lid +:+ "}.";
    "      ?l ontolex:sense ?sense.";
    "      ?sense skos:definition ?gloss.";
    "      # Exclude lexemes without a linked QID from at least one sense";
    "      ?sense wdt:P5137 [].";
    "    }" ].

(** [count_number_of_senses_with_P5137] *)
Definition count_number_of_senses_with_P5137 (lid : string) : M Z :=
  result <- sparql_query (count_query lid) ;;
  match result with
  | [] => raise IndexError
  | first :: _ =>
      text <- lift (binding first "count") ;;
      match Str.python_int text with
      | Some count => ret count
      | None => raise ValueError
      end
  end.

Definition senses_query (lid : string) : string :=
  unlines [
    EmptyString;
    "    SELECT";
    "    ?sense ?gloss";
    "    WHERE {";
    "      VALUES ?l {wd:" +:+ lid +:+ "}.";
    "      ?l ontolex:sense ?sense.";
    "      ?sense skos:definition ?gloss.";
    "      # Get only the swedish gloss, exclude otherwise";
    "      FILTER(LANG(?gloss) = " +:+ Str.dquote +:+ language_code
      +:+ Str.dquote +:+ ")";
    "      # Exclude lexemes without a linked QID from at least one sense";
    "      ?sense wdt:P5137 [].";
    "    }" ].

(** The loop of [fetch_senses] over the rows. *)
Fixpoint collect_senses (result : list row) : outcome (list sense) :=
  match result with
  | [] => Returns []
  | r :: rest =>
      s <~ binding r "sense" ;;
      g <~ binding r "gloss" ;;
      senses <~ collect_senses rest ;;
      Returns ({| sense_id := Str.replace wd_prefix EmptyString s;
                  gloss := g |} :: senses)
  end.

Definition fetch_senses (lid : string) : M (list sense) :=
  result <- sparql_query (senses_query lid) ;;
  lift (collect_senses result).

Definition extract_data (result : row) : outcome lexform :=
  l <~ binding result "l" ;;
  f <~ binding result "form" ;;
  wd <~ binding result "word" ;;
  cat <~ binding result "catLabel" ;;
  Returns {| lid := Str.replace wd_prefix EmptyString l;
             form_id := Str.replace wd_prefix EmptyString f;
             word := wd;
             word_spaces := " " +:+ wd +:+ " ";
             word_angle_parens := ">" +:+ wd +:+ "<";
             category := cat |}.

(** [add_usage_example]: [False] when the publication date is missing,
    otherwise what [item.write] returns.  The two qualifiers are built
    first, so an identifier the library refuses ends the call with
    [ValueError] before the login and the write.  The values of the
    reference are a constant item, the document identifier as it is, and
    two dates printed by [strftime], which the library takes. *)
Definition add_usage_example
    (document_id sentence lid form_id sense_id word publication_date
       : option string) : M pyresult :=
  match publication_date with
  | None =>
      print ("Publication date of document {document_id} " +:+
             "is missing. We have no fallback for that at the moment. " +:+
             "Abort adding usage example.") ;;;
      ret PFalse
  | Some text =>
      match fromisoformat text with
      | None => raise ValueError
      | Some published =>
          link_to_form <- lift (wbi_form form_id) ;;
          link_to_sense <- lift (wbi_sense sense_id) ;;
          fun w =>
            let claim :=
              {| claim_text := sentence;
                 claim_language := language_code;
                 claim_form := link_to_form;
                 claim_sense := link_to_sense;
                 ref_stated_in := "Q21592569";
                 ref_document := document_id;
                 ref_retrieved := "+" +:+ utc_today (log w) +:+ "T00:00:00Z";
                 ref_published := "+" +:+ published +:+ "T00:00:00Z" |} in
            let it :=
              {| item_claim := claim;
                 item_append := ["P5831"];
                 item_id := lid |} in
            (when debug_json (print (item_json it)) ;;;
             session <-
               (fun w1 =>
                  match login_instance w1 with
                  | Some session => (Returns session, w1)
                  | None =>
                      (print "Logging in with Wikibase Integrator" ;;;
                       fun w2 =>
                         match wbi_login (log w2) username password with
                         | Failure e => (Raises e, record (LoggedIn username) w2)
                         | Answer session =>
                             (Returns session,
                              set_login (Some session)
                                (record (LoggedIn username) w2))
                         end) w1
                  end) ;;
             fun w3 =>
               let summary := "Added usage example with [[Wikidata:LexUse]]" in
               match wbi_write (log w3) session it summary with
               | Failure e => (Raises e, record (Wrote it summary) w3)
               | Answer result => (Returns (PText result), record (Wrote it summary) w3)
               end) w
      end
  end.

(** The option lines of [prompt_choose_sense], numbered from [number]. *)
Fixpoint option_lines (number : nat) (senses : list sense) : string :=
  match senses with
  | [] => EmptyString
  | s :: rest =>
      Str.newline +:+ pretty number +:+ ") " +:+ gloss s
        +:+ option_lines (S number) rest
  end.

Definition choose_options (senses : list sense) : string :=
  "Please choose the correct sense corresponding " +:+
  "to the meaning in the usage example" +:+
  option_lines 1 senses +:+
  Str.newline +:+ "Please input a number or 0 to cancel: ".

(** The [while True] of [prompt_choose_sense]: a line that is not a number
    is answered with an apology and the menu is shown again. *)
Fixpoint choose_sense_loop (senses : list sense) (lines : list string)
    (w : world) : outcome (option sense) * world :=
  let options := choose_options senses in
  match lines with
  | [] => (Raises EOFError, record (Asked options None) w)
  | answer :: rest =>
      let w' := record (Asked options (Some answer)) (set_stdin rest w) in
      match Str.python_int answer with
      | None =>
          choose_sense_loop senses rest
            (record (Printed "Sorry, I didn't understand that.") w')
      | Some choice =>
          if (0 <? choice)%Z && (choice <=? Z.of_nat (length senses))%Z
          then
            match senses !! (Z.to_nat choice - 1)%nat with
            | Some s => (Returns (Some s), w')
            | None => (Raises (KeyError "choice"), w')
            end
          else (Returns None, record (Printed "Cancelled adding this sentence.") w')
      end
  end.

Definition prompt_choose_sense (senses : list sense) : M (option sense) :=
  fun w => choose_sense_loop senses (stdin w) w.

(** [add_to_watchlist] *)
Definition add_to_watchlist (lid : string) : M unit := fun w =>
  match login_instance w with
  | None => (Raises AttributeError, w)
  | Some session =>
      let w1 := record TokenRequested w in
      match watch_token (log w) session with
      | Failure e => (Raises e, w1)
      | Answer csrf_token =>
          let titles := "Lexeme:" +:+ lid in
          let w2 := record (Watched titles) w1 in
          match watch_post (log w1) session titles csrf_token with
          | Failure e => (Raises e, w2)
          | Answer text =>
              (when debug_json (print text) ;;;
               print ("Added " +:+ lid +:+ " to your watchlist")) w2
          end
      end
  end.

Definition only_sense_advice (word : string) : string :=
  "Cancelled adding sentence as it does not match the " +:+
  "only sense currently present. " +:+ Str.newline +:+ "Lexemes are " +:+
  "entirely dependent on good quality QIDs. " +:+ Str.newline +:+
  "Please add labels " +:+
  "and descriptions to relevant QIDs and then use " +:+
  "MachtSinn to add " +:+
  "more senses to lexemes by matching on QID concepts " +:+
  "with similar labels and descriptions in the lexeme " +:+
  "language." +:+
  Str.newline +:+ "Search for " +:+ word +:+ " in Wikidata: " +:+
  "https://www.wikidata.org/w/index.php?" +:+
  "search=" +:+ word +:+ "&title=Special%3ASearch&" +:+
  "profile=advanced&fulltext=0&" +:+
  "advancedSearch-current=%7B%7D&ns0=1".

(** The part of [prompt_sense_approval] after the senses are fetched.
    [None] stands for [False]. *)
Definition approve_sense (data : lexform) (senses : list sense)
  : M (option selected) :=
  let number_of_senses := length senses in
  if (0 <? number_of_senses)%nat then
    if (number_of_senses =? 1)%nat then
      match senses !! 0%nat with
      | None => raise (KeyError "1")
      | Some only =>
          fits <- yes_no_question
                    ("Found only one sense. " +:+
                     "Does this example fit the following " +:+
                     "gloss? " +:+ Str.newline +:+ "'" +:+ gloss only +:+ "'") ;;
          if fits : bool
          then ret (Some {| sel_sense_id := sense_id only;
                            sel_sense_gloss := gloss only |})
          else print (only_sense_advice (word data)) ;;;
               sleep 5 ;;;
               ret None
      end
    else
      print ("Found " +:+ pretty number_of_senses +:+ " senses.") ;;;
      chosen <- prompt_choose_sense senses ;;
      match chosen with
      | Some s => ret (Some {| sel_sense_id := sense_id s;
                               sel_sense_gloss := gloss s |})
      | None => ret None
      end
  else
    count <- count_number_of_senses_with_P5137 "L35455" ;;
    if (0 <? count)%Z then
      print ("{language.title()} gloss is missing for {count} sense(s)" +:+
             ". Please fix it manually here: " +:+
             wd_prefix +:+ lid data) ;;;
      sleep 5 ;;;
      ret None
    else ret None.

Definition prompt_sense_approval (sentence : string) (data : lexform)
  : M (option selected) :=
  senses <- fetch_senses (lid data) ;;
  approve_sense data senses.

(** Modelled from the spec: the call of the corpus search collaborator
    [riksdagen.get_records], whose result [get_sentences_from_apis] does
    not keep. *)
Definition search_records (data : lexform) : M batch := fun w =>
  (Returns (get_records (log w) data), record (Searched data) w).

(** [get_sentences_from_apis] has no [return]: it gives [None]. *)
Definition get_sentences_from_apis (result : row) : M (option batch) :=
  data <- lift (extract_data result) ;;
  print ("Trying to find examples for the " +:+ category data +:+ " lexeme " +:+
         "form: " +:+ word data +:+ " with id: " +:+ form_id data) ;;;
  search_records data ;;;
  ret None.

Definition suitable_prompt (data : lexform) (sentence : string) : string :=
  "Found the following sentence with " +:+ pretty (count_words sentence) +:+ " " +:+
  "words. Is it suitable as a usage example " +:+
  "for the form '" +:+ word data +:+ "'? " +:+ Str.newline +:+
  "'" +:+ sentence +:+ "'".

(** [present_sentence]: [Some true], [Some false], or [None]; the function
    ends without a [return] when the sentence is accepted and no sense is
    approved, which gives [None] as well.  The test that the sense
    identifier and the gloss are not [None] always succeeds, both being
    texts taken from the rows of [fetch_senses]. *)
Definition present_sentence (data : lexform) (sentence : string)
    (document_id date : option string) : M (option bool) :=
  result <- yes_no_skip_question (suitable_prompt data sentence) ;;
  match result with
  | Some true =>
      selected_sense <- prompt_sense_approval sentence data ;;
      match selected_sense with
      | Some sel =>
          result <- add_usage_example document_id (Some sentence)
                      (Some (lid data)) (Some (form_id data))
                      (Some (sel_sense_id sel)) (Some (word data)) date ;;
          if truthy result then
            print ("Successfully added usage example " +:+
                   "to " +:+ wd_prefix +:+ lid data) ;;;
            add_to_watchlist (lid data) ;;;
            ret (Some true)
          else ret (Some false)
      | None => ret None
      end
  | None => ret None
  | Some false => ret (Some false)
  end.

(** The dictionary [dict(word=.., date=.., lang=..)] kept for a form. *)
Definition exclusion_record (word date lang : string) : json :=
  JObj (<["word" := JStr word]>
          (<["date" := JStr date]> (<["lang" := JStr lang]> ∅))).

(** [save_to_exclude_list].  When the file holds some text, it is opened
    for writing, which empties it, before the text read earlier is parsed
    and the changed dictionary is dumped. *)
Definition save_to_exclude_list (data : option lexform) : M unit :=
  match data with
  | None => print "Error. Data was None" ;;; exit 1
  | Some data => fun w =>
      let form_data :=
        exclusion_record (word data) (now_isoformat (log w)) language_code in
      match disk w with
      | Some json_data =>
          if nonempty json_data then
            let w' := set_disk (Some Empty) w in
            match json_loads json_data with
            | Returns (JObj exclude_list) =>
                (Returns tt,
                 set_disk (Some (Document
                   (JObj (<[form_id data := form_data]> exclude_list)))) w')
            | Returns _ => (Raises TypeError, w')
            | Exits code => (Exits code, w')
            | Raises e => (Raises e, w')
            end
          else (print "Error. json data is null." ;;; exit 1) w
      | None =>
          (Returns tt,
           set_disk (Some (Document
             (JObj (<[form_id data := form_data]> ∅)))) w)
      end
  end.

(** [form_data["lang"]] *)
Definition getitem_lang (form_data : json) : outcome json :=
  match form_data with
  | JObj m =>
      match m !! "lang" with
      | Some v => Returns v
      | None => Raises (KeyError "lang")
      end
  | _ => Raises TypeError
  end.

(** [text == value] for a [str] on the left. *)
Definition str_eq (text : string) (value : json) : bool :=
  match value with
  | JStr s => String.eqb text s
  | _ => false
  end.

(** The [for] loop of [in_exclude_list] over the keys of a dictionary. *)
Fixpoint scan_dict (lid : string) (items : list (string * json))
  : outcome bool :=
  match items with
  | [] => Returns false
  | (form_id, form_data) :: rest =>
      if String.eqb lid form_id then
        lang <~ getitem_lang form_data ;;
        if str_eq language_code lang then Returns true
        else scan_dict lid rest
      else scan_dict lid rest
  end.

(** [exclude_list[x]] when the parsed document is a list: [x] has to be an
    integer (or a boolean) within the bounds. *)
Definition list_getitem (xs : list json) (x : json) : outcome json :=
  let at_index (i : Z) :=
    let n := Z.of_nat (length xs) in
    let j := if (i <? 0)%Z then (i + n)%Z else i in
    if (0 <=? j)%Z && (j <? n)%Z
    then match xs !! Z.to_nat j with
         | Some v => Returns v
         | None => Raises IndexError
         end
    else Raises IndexError in
  match x with
  | JInt i => at_index i
  | JBool b => at_index (if b then 1 else 0)%Z
  | _ => Raises TypeError
  end.

(** The same loop over the elements of a list: an element that is an index
    never equals the lexeme identifier, which is a [str]. *)
Fixpoint scan_list (whole items : list json) : outcome bool :=
  match items with
  | [] => Returns false
  | x :: rest => _ <~ list_getitem whole x ;; scan_list whole rest
  end.

Definition scan (lid : string) (exclude_list : json) : outcome bool :=
  match exclude_list with
  | JObj m => scan_dict lid (map_to_list m)
  | JArr xs => scan_list xs xs
  | JStr EmptyString => Returns false
  | _ => Raises TypeError
  end.

(** [in_exclude_list] *)
Definition in_exclude_list (data : lexform) : M bool := fun w =>
  match disk w with
  | Some json_data =>
      (exclude_list <~ json_loads json_data ;; scan (lid data) exclude_list, w)
  | None => (Returns false, w)
  end.

(** The lines of the [for] loop of [process_result] in front of the call
    of [present_sentence]. *)
Definition announce (sentences_and_result_data : batch)
    (total count : nat) (sentence : string) : M result_data :=
  print ("Presenting sentence " +:+ pretty count +:+ "/" +:+ pretty total) ;;;
  result_data <- lift (getitem sentences_and_result_data sentence) ;;
  when debug_sentences
    (print ("with document_id: " +:+ show_opt (document_id result_data)
            +:+ " from " +:+ show_opt (date result_data))) ;;;
  ret result_data.

(** The body of the loop up to the answer of [present_sentence]. *)
Definition present_next (data : lexform) (sentences_and_result_data : batch)
    (total count : nat) (sentence : string) : M (option bool) :=
  result_data <- announce sentences_and_result_data total count sentence ;;
  present_sentence data sentence (document_id result_data) (date result_data).

(** The [for] loop of [process_result] over the sorted sentences: it ends
    with [save_to_exclude_list] at the first answer that is [True] or
    [None], and goes on after [False]. *)
Fixpoint present_all (data : lexform) (sentences_and_result_data : batch)
    (total count : nat) (sorted_sentences : list string) : M unit :=
  match sorted_sentences with
  | [] => ret tt
  | sentence :: rest =>
      result <- present_next data sentences_and_result_data total count
                  sentence ;;
      match result with
      | Some false =>
          present_all data sentences_and_result_data total (S count) rest
      | Some true | None => save_to_exclude_list (Some data)
      end
  end.

(** [sorted(sentences_and_result_data, key=len)] *)
Definition sorted_sentences (sentences_and_result_data : batch) : list string :=
  py_sorted String.length (sentences_and_result_data.*1).

(** The branch of [process_result] for a mapping that is not [None]. *)
Definition curate (data : lexform) (sentences_and_result_data : batch)
  : M unit :=
  let sorted := sorted_sentences sentences_and_result_data in
  present_all data sentences_and_result_data (length sorted) 1 sorted.

(** [process_result] *)
Definition process_result (result : row) (data : lexform) : M unit :=
  sentences_and_result_data <- get_sentences_from_apis result ;;
  match sentences_and_result_data with
  | Some mapping => curate data mapping
  | None =>
      print ("Added to excludelist because of no " +:+
             "suitable sentences were found") ;;;
      save_to_exclude_list (Some data)
  end.

(** The first loop of [process_lexeme_data]. *)
Fixpoint collect_words (results : list row) : outcome (list string) :=
  match results with
  | [] => Returns []
  | result :: rest =>
      data <~ extract_data result ;;
      words <~ collect_words rest ;;
      Returns (word data :: words)
  end.

(** How far [process_lexeme_data] got with the random draws it was given:
    the process has ended, or the loop is about to draw again. *)
Inductive run :=
| Halted (o : outcome unit) (earlier_choices : list row) (w : world)
| Drawing (earlier_choices : list row) (w : world).

(** [random.choice(results)] for the random number [d]. *)
Definition choice (results : list row) (d : nat) : outcome row :=
  match results !! (d mod length results)%nat with
  | Some result => Returns result
  | None => Raises IndexError
  end.

(** One turn of the [while True] for a row that was not chosen before. *)
Definition visit (result : row) : M unit :=
  data <- lift (extract_data result) ;;
  excluded <- in_exclude_list data ;;
  if excluded : bool then ret tt else process_result result data.

(** The [while True] of [process_lexeme_data], one turn per random
    number. *)
Fixpoint sampling_loop (results : list row) (draws : list nat)
    (earlier_choices : list row) (w : world) : run :=
  if (Z.of_nat (length earlier_choices) =? sparql_results_size)%Z then
    Halted (Exits 0) earlier_choices
      (record (Printed "No more results. Run the script again to continue") w)
  else
    match draws with
    | [] => Drawing earlier_choices w
    | d :: draws' =>
        match choice results d with
        | Returns result =>
            if bool_decide (result ∈ earlier_choices)
            then sampling_loop results draws' earlier_choices w
            else
              match visit result w with
              | (Returns _, w') =>
                  sampling_loop results draws' (earlier_choices ++ [result]) w'
              | (o, w') => Halted o (earlier_choices ++ [result]) w'
              end
        | Exits code => Halted (Exits code) earlier_choices w
        | Raises e => Halted (Raises e) earlier_choices w
        end
    end.

(** [process_lexeme_data] *)
Definition process_lexeme_data (results : list row) (draws : list nat)
    (w : world) : run :=
  match collect_words results with
  | Returns words =>
      sampling_loop results draws []
        (record (Printed "Going through the list of forms at random.")
           (record (Printed ("Got " +:+ pretty (length words) +:+
                             " suitable forms from Wikidata")) w))
  | Exits code => Halted (Exits code) [] w
  | Raises e => Halted (Raises e) [] w
  end.

End Model.

(** ** Observations on worlds and logs *)

(** The edits sent to the write API. *)
Definition submissions (l : list event) : list item :=
  omap (fun e => match e with Wrote it _ => Some it | _ => None end) l.

(** The prompts shown to the operator. *)
Definition asked (l : list event) : list string :=
  omap (fun e => match e with Asked prompt _ => Some prompt | _ => None end) l.

(** The store holds a record for [form] with language code [lang]. *)
Definition recorded (d : option file_text) (form lang : string) : Prop :=
  exists m v, d = Some (Document (JObj m))
              /\ m !! form = Some v
              /\ getitem_lang v = Returns (JStr lang).

(** A backing file the store operations read without an error: no file, or
    a dictionary whose values all have a ["lang"] entry. *)
Definition store_ok (d : option file_text) : Prop :=
  match d with
  | None => True
  | Some (Document (JObj m)) =>
      map_Forall (fun _ v => exists l, getitem_lang v = Returns l) m
  | Some _ => False
  end.

Definition world_of (r : run) : world :=
  match r with Halted _ _ w => w | Drawing _ w => w end.

(** A computation leaves the observation [f] of the world as it is. *)
Definition preserves {X A} (f : world -> X) (c : M A) : Prop :=
  forall w, f (c w).2 = f w.

(** An observation of the log that does not see the events in [hidden]. *)
Definition blind {X} (f : world -> X) (hidden : event -> Prop) : Prop :=
  (forall e w, hidden e -> f (record e w) = f w)
  /\ (forall lines w, f (set_stdin lines w) = f w)
  /\ (forall l w, f (set_login l w) = f w).

Definition is_print (e : event) : Prop :=
  match e with Printed _ | Slept _ | Searched _ => True | _ => False end.

Definition not_written (e : event) : Prop :=
  match e with Wrote _ _ => False | _ => True end.

Definition not_asked (e : event) : Prop :=
  match e with Asked _ _ => False | _ => True end.

(** The question of [yes_no_skip_question] about a sentence, as shown. *)
Definition skip_prompt (data : lexform) (sentence : string) : string :=
  suitable_prompt data sentence +:+ " [(Y)es/(n)o/(s)kip this form]: ".

(** The edits in a log that name the form [form]. *)
Definition edits_for (form : string) (l : list event) : list item :=
  filter (fun it => claim_form (item_claim it) = Some form) (submissions l).

(** Every sentence of the list is presented, from number [count] on, and
    [present_sentence] answers [False] each time; [w'] is the world after
    the last answer. *)
Inductive all_rejected {cfg : config} {env : environment}
    (data : lexform) (mapping : batch) (total : nat)
  : nat -> list string -> world -> world -> Prop :=
| rejected_none count w : all_rejected data mapping total count [] w w
| rejected_next count sentence rest w w1 w2 :
    present_next data mapping total count sentence w
      = (Returns (Some false), w1) ->
    all_rejected data mapping total (S count) rest w1 w2 ->
    all_rejected data mapping total count (sentence :: rest) w w2.

(** The run reached the completion message and [exit(0)]. *)
Definition completed (r : run) : Prop :=
  match r with
  | Halted (Exits 0) _ w =>
      last (log w)
      = Some (Printed "No more results. Run the script again to continue")
  | _ => False
  end.

Definition visited (r : run) : list row :=
  match r with Halted _ earlier _ => earlier | Drawing earlier _ => earlier end.

(** ** Sample data *)

Module Sample.

Definition swedish (size : Z) : config :=
  {| language := "swedish"; language_code := "sv"; language_qid := "Q9027";
     sparql_results_size := size; sparql_offset := 0;
     username := "operator"; password := "secret";
     debug_json := false; debug_sentences := false |}.

Definition uri (value : string) : gmap string string :=
  <["type" := "uri"]> (<["value" := wd_prefix +:+ value]> ∅).

Definition literal (value : string) : gmap string string :=
  <["type" := "literal"]> (<["value" := value]> ∅).

Definition form_row (l f w cat : string) : row :=
  <["l" := uri l]> (<["form" := uri f]>
    (<["word" := literal w]> (<["catLabel" := literal cat]> ∅))).

Definition sense_row (s g : string) : row :=
  <["sense" := uri s]> (<["gloss" := literal g]> ∅).

Definition hus : row := form_row "L35455" "L35455-F1" "hus" "noun".
Definition bil : row := form_row "L40000" "L40000-F2" "bilen" "noun".

Definition hus_data : lexform :=
  {| lid := "L35455"; form_id := "L35455-F1"; word := "hus";
     word_spaces := " hus "; word_angle_parens := ">hus<";
     category := "noun" |}.

(** An endpoint that knows the senses in [senses] for every lexeme, and a
    write API that accepts every edit. *)
Definition services (senses : list row) : environment :=
  {| endpoint := fun _ _ => Answer senses;
     get_records := fun _ _ => [];
     now_isoformat := fun _ => "2021-02-03T04:05:06.000007";
     utc_today := fun _ => "2021-02-03";
     fromisoformat := fun text => Some text;
     wbi_login := fun _ _ _ => Answer 1%nat;
     wbi_write := fun _ _ it _ => Answer (show_opt (item_id it));
     item_json := fun _ => "{}";
     watch_token := fun _ _ => Answer "token";
     watch_post := fun _ _ _ _ => Answer "{}" |}.

Definition fresh (lines : list string) : world :=
  {| disk := None; stdin := lines; login_instance := None; log := [] |}.

Definition with_file (t : file_text) (lines : list string) : world :=
  {| disk := Some t; stdin := lines; login_instance := None; log := [] |}.

(** A store that already lists the form [L35455-F1] for Swedish. *)
Definition listed : file_text :=
  Document (JObj (<["L35455-F1" :=
    exclusion_record "hus" "2021-01-01T00:00:00" "sv"]> ∅)).

Definition five_words : string := "a b c d e".
Definition two_words : string := "internationalization standardization".
Definition eight_words : string := "a b c d e f g h".

Definition undated (doc : string) : result_data :=
  {| document_id := Some doc; date := None |}.

Definition dated (doc day : string) : result_data :=
  {| document_id := Some doc; date := Some day |}.

Definition three_sentences : batch :=
  [(five_words, dated "H1" "2020-01-01");
   (two_words, dated "H2" "2020-01-02");
   (eight_words, dated "H3" "2020-01-03")].

Definition two_sentences : batch :=
  [("hus", undated "H1"); ("ett hus", dated "H2" "2020-01-02")].

Definition one_sentence : batch := [("ett hus", dated "H2" "2020-01-02")].

(** The only sense the sample endpoint knows. *)
Definition building : list row := [sense_row "L35455-S1" "building"].

(** The world in which the sampler makes its first draw when it starts with
    a store that lists the form. *)
Definition first_draw : world :=
  record (Printed "Going through the list of forms at random.")
    (record (Printed "Got 1 suitable forms from Wikidata")
       (with_file listed [])).

Definition one_sense_prompt : string :=
  "Found only one sense. Does this example fit the following gloss? " +:+
  Str.newline +:+ "'building' [Y/n]: ".

Definition abort_message : string :=
  "Publication date of document {document_id} " +:+
  "is missing. We have no fallback for that at the moment. " +:+
  "Abort adding usage example.".

End Sample.

(** ** Further observations *)

(** The queries sent to the SPARQL endpoint. *)
Definition queries (l : list event) : list string :=
  omap (fun e => match e with Queried q => Some q | _ => None end) l.

(** What is shown to the operator or typed by the operator, and pauses. *)
Definition is_talk (e : event) : Prop :=
  match e with Printed _ | Asked _ _ | Slept _ => True | _ => False end.

Definition not_queried (e : event) : Prop :=
  match e with Queried _ => False | _ => True end.

Definition not_login (e : event) : Prop :=
  match e with LoggedIn _ => False | _ => True end.

(** The [input] events of the lines [lines] typed at the prompt [prompt]. *)
Definition typed (prompt : string) (lines : list string) : list event :=
  (fun l => Asked prompt (Some l)) <$> lines.

(** How [yes_no_skip_question] reads one line: [None] when the line is not
    an answer, otherwise the value returned ([Some None] is skip). *)
Definition skip_reply (answer : string) : option (option bool) :=
  match answer with
  | EmptyString => Some (Some true)
  | String c _ =>
      if decide (Str.lower c = "y"%char) then Some (Some true)
      else if decide (Str.lower c = "n"%char) then Some (Some false)
      else if decide (Str.lower c = "s"%char) then Some None
      else None
  end.

(** How [yes_no_question] reads one line. *)
Definition yes_no_reply (answer : string) : option bool :=
  match answer with
  | EmptyString => Some true
  | String c _ =>
      if decide (Str.lower c = "y"%char) then Some true
      else if decide (Str.lower c = "n"%char) then Some false
      else None
  end.

(** The entry of the menu that the number [choice] stands for. *)
Definition chosen (senses : list sense) (choice : Z) : option sense :=
  if (0 <? choice)%Z && (choice <=? Z.of_nat (length senses))%Z
  then senses !! (Z.to_nat choice - 1)%nat
  else None.

Definition selection (s : sense) : selected :=
  {| sel_sense_id := sense_id s; sel_sense_gloss := gloss s |}.

Definition is_dict (v : json) : bool :=
  match v with JObj _ => true | _ => false end.

(** The backing file is a dictionary with the key [k]. *)
Definition has_key (d : option file_text) (k : string) : Prop :=
  exists m, d = Some (Document (JObj m)) /\ is_Some (m !! k).

Fixpoint count_spaces (s : string) : nat :=
  match s with
  | EmptyString => 0
  | String c s' =>
      if Ascii.eqb c " "%char then S (count_spaces s') else count_spaces s'
  end.

(** [old] occurs somewhere in [s]. *)
Fixpoint occurs (old s : string) : bool :=
  String.prefix old s
  || match s with
     | EmptyString => false
     | String _ s' => occurs old s'
     end.

(** A row lacks one of the four bindings [extract_data] reads. *)
Definition lacks_binding (result : row) : Prop :=
  exists var, var ∈ ["l"; "form"; "word"; "catLabel"] /\ result !! var = None.

(** The world in which [get_sentences_from_apis] calls the corpus search
    for the form [data], when it was called in [w]. *)
Definition searching (data : lexform) (w : world) : world :=
  record (Printed ("Trying to find examples for the " +:+ category data +:+
                   " lexeme " +:+ "form: " +:+ word data +:+ " with id: " +:+
                   form_id data)) w.

(** The edit [add_usage_example] assembles from its arguments, for the
    publication day [published] and the day [today] of the call. *)
Definition usage_item {cfg : config}
    (document_id sentence lid form_id sense_id : option string)
    (published today : string) : item :=
  {| item_claim :=
       {| claim_text := sentence;
          claim_language := language_code;
          claim_form := form_id;
          claim_sense := sense_id;
          ref_stated_in := "Q21592569";
          ref_document := document_id;
          ref_retrieved := "+" +:+ today +:+ "T00:00:00Z";
          ref_published := "+" +:+ published +:+ "T00:00:00Z" |};
     item_append := ["P5831"];
     item_id := lid |}.

(** The characters of a text are decimal digits. *)
Fixpoint all_digits (s : string) : bool :=
  match s with
  | EmptyString => true
  | String c s' => Str.is_digit c && all_digits s'
  end.

(** ** More sample data *)

Module Cases.
Import Sample.

Definition bil_data : lexform :=
  {| lid := "L40000"; form_id := "L40000-F2"; word := "bilen";
     word_spaces := " bilen "; word_angle_parens := ">bilen<";
     category := "noun" |}.

(** The dictionary of the store [listed]. *)
Definition listed_map : gmap string json :=
  <["L35455-F1" := exclusion_record "hus" "2021-01-01T00:00:00" "sv"]> ∅.

(** A store whose key is a lexeme identifier. *)
Definition by_lexeme : gmap string json :=
  <["L35455" := exclusion_record "hus" "2021-01-01T00:00:00" "sv"]> ∅.

(** A row without the bindings [form], [word] and [catLabel]. *)
Definition broken : row := <["l" := uri "L50000"]> ∅.

Definition finance : sense :=
  {| sense_id := "L7-S1"; gloss := "a bank (finance)" |}.

Definition river : sense :=
  {| sense_id := "L7-S2"; gloss := "a river bank" |}.

Definition building_sense : sense :=
  {| sense_id := "L35455-S1"; gloss := "building" |}.

(** The worlds of a presentation in which the operator accepts the
    sentence and declines the only sense. *)
Definition declining : world := fresh ["y"; "n"].

Definition announced : world :=
  (announce (cfg:=swedish 1) one_sentence 1 1 "ett hus" declining).2.

Definition accepted : world :=
  (yes_no_skip_question (suitable_prompt hus_data "ett hus") announced).2.

Definition declined : world :=
  (prompt_sense_approval (cfg:=swedish 1) (env:=services building)
     "ett hus" hus_data accepted).2.

(** The sample services with a corpus search that finds the sentences of
    [mapping] for every form. *)
Definition corpus (mapping : batch) (senses : list row) : environment :=
  {| endpoint := fun _ _ => Answer senses;
     get_records := fun _ _ => mapping;
     now_isoformat := fun _ => "2021-02-03T04:05:06.000007";
     utc_today := fun _ => "2021-02-03";
     fromisoformat := fun text => Some text;
     wbi_login := fun _ _ _ => Answer 1%nat;
     wbi_write := fun _ _ it _ => Answer (show_opt (item_id it));
     item_json := fun _ => "{}";
     watch_token := fun _ _ => Answer "token";
     watch_post := fun _ _ _ _ => Answer "{}" |}.


(** The sample services when the login is refused. *)
Definition locked_out (senses : list row) : environment :=
  {| endpoint := fun _ _ => Answer senses;
     get_records := fun _ _ => [];
     now_isoformat := fun _ => "2021-02-03T04:05:06.000007";
     utc_today := fun _ => "2021-02-03";
     fromisoformat := fun text => Some text;
     wbi_login := fun _ _ _ => Failure (LibraryError "login");
     wbi_write := fun _ _ it _ => Answer (show_opt (item_id it));
     item_json := fun _ => "{}";
     watch_token := fun _ _ => Answer "token";
     watch_post := fun _ _ _ _ => Answer "{}" |}.

(** The world after the edit for the sample sentence was written. *)
Definition written : world :=
  (add_usage_example (cfg:=swedish 1) (env:=services building)
     (Some "H2") (Some "ett hus") (Some "L35455") (Some "L35455-F1")
     (Some "L35455-S1") (Some "hus") (Some "2020-01-02") (fresh [])).2.

End Cases.

(** * Properties *)

(** ** The string functions on small inputs *)

Example count_words_sentence : count_words "a b c d e" = 5.
Proof. reflexivity. Qed.

Example count_words_padded : count_words "  hus  " = 1.
Proof. reflexivity. Qed.

Example count_words_double_space : count_words "a  b" = 3.
Proof. reflexivity. Qed.

Example count_words_empty : count_words EmptyString = 1.
Proof. reflexivity. Qed.

Example python_int_padded : Str.python_int " 12 " = Some 12%Z.
Proof. reflexivity. Qed.

Example python_int_negative : Str.python_int "-3" = Some (-3)%Z.
Proof. reflexivity. Qed.

Example python_int_underscore : Str.python_int "1_000" = Some 1000%Z.
Proof. reflexivity. Qed.

Example python_int_letters : Str.python_int "two" = None.
Proof. reflexivity. Qed.

Example python_int_empty : Str.python_int EmptyString = None.
Proof. reflexivity. Qed.

(** [int] does not skip the separators that [str.strip] removes, and it
    skips a no-break space. *)
Example python_int_separator :
  Str.python_int (String "028"%char "1") = None
  /\ Str.strip (String "028"%char "1") = "1".
Proof. split; reflexivity. Qed.

Example python_int_no_break_space :
  Str.python_int (String "160"%char "1") = Some 1%Z.
Proof. reflexivity. Qed.

Example is_part_id_form :
  Str.is_part_id "F"%char "L35455-F1" = true
  /\ Str.is_part_id "F"%char "L35455-S1" = false
  /\ Str.is_part_id "F"%char "hus" = false
  /\ Str.is_part_id "F"%char "L-F1" = false
  /\ Str.is_part_id "F"%char "L35455-F1 " = false.
Proof. repeat split; reflexivity. Qed.

Example replace_prefix :
  Str.replace wd_prefix EmptyString "http://www.wikidata.org/entity/L35455-F1"
  = "L35455-F1".
Proof. reflexivity. Qed.

Example extract_data_hus : extract_data Sample.hus = Returns Sample.hus_data.
Proof. vm_compute. reflexivity. Qed.

Example sorted_is_stable :
  py_sorted String.length ["ccc"; "bb"; "a"; "dd"; "e"]
  = ["a"; "e"; "bb"; "dd"; "ccc"].
Proof. reflexivity. Qed.

(** ** Calls that leave an observation alone *)

Section Preservation.
Context {X : Type} (f : world -> X).

Lemma preserves_ret {A} (a : A) : preserves f (ret a).
Proof. by intros w. Qed.

Lemma preserves_lift {A} (o : outcome A) : preserves f (lift o).
Proof. by intros w. Qed.

Lemma preserves_raise {A} (e : exn) : preserves f (raise (A:=A) e).
Proof. by intros w. Qed.

Lemma preserves_exit {A} (code : Z) : preserves f (exit (A:=A) code).
Proof. by intros w. Qed.

Lemma preserves_bind {A B} (c : M A) (k : A -> M B) :
  preserves f c -> (forall a, preserves f (k a)) -> preserves f (bind c k).
Proof.
  intros Hc Hk w. unfold bind. specialize (Hc w).
  destruct (c w) as [[a|code|e] w1]; simpl in *; [|done..].
  by rewrite Hk.
Qed.

Lemma preserves_emit (e : event) :
  (forall w, f (record e w) = f w) -> preserves f (emit e).
Proof. intros H w. apply H. Qed.

Lemma preserves_when (b : bool) (c : M unit) :
  preserves f c -> preserves f (when b c).
Proof. intros H. destruct b; [done | apply preserves_ret]. Qed.

End Preservation.

Lemma submissions_snoc l e :
  not_written e -> submissions (l ++ [e]) = submissions l.
Proof.
  intros H. unfold submissions. rewrite omap_app. destruct e; simpl in *;
    try done; by rewrite app_nil_r.
Qed.

Lemma asked_snoc l e : not_asked e -> asked (l ++ [e]) = asked l.
Proof.
  intros H. unfold asked. rewrite omap_app. destruct e; simpl in *;
    try done; by rewrite app_nil_r.
Qed.

Lemma blind_disk : blind disk (fun _ => True).
Proof. by repeat split. Qed.

Lemma blind_submissions : blind (fun w => submissions (log w)) not_written.
Proof. repeat split; try done. intros e w H. by apply submissions_snoc. Qed.

Lemma blind_asked : blind (fun w => asked (log w)) not_asked.
Proof. repeat split; try done. intros e w H. by apply asked_snoc. Qed.

Lemma is_print_not_written e : is_print e -> not_written e.
Proof. by destruct e. Qed.

Lemma is_print_not_asked e : is_print e -> not_asked e.
Proof. by destruct e. Qed.

Section Workflow.
Context {cfg : config} {env : environment}.

(** ** The exclusion store *)

Lemma scan_dict_miss lid items :
  lid ∉ items.*1 -> scan_dict lid items = Returns false.
Proof.
  induction items as [|[k v] items IH]; intros Hnot; [done|].
  simpl in *. apply not_elem_of_cons in Hnot as [Hne Hnot].
  destruct (String.eqb_spec lid k) as [->|_]; [done|]. by apply IH.
Qed.

Lemma scan_dict_hit lid items v :
  NoDup (items.*1) -> (lid, v) ∈ items ->
  scan_dict lid items
  = (lang <~ getitem_lang v ;; Returns (str_eq language_code lang)).
Proof.
  induction items as [|[k v'] items IH]; intros Hnd Hin.
  { by apply elem_of_nil in Hin. }
  simpl in *. apply NoDup_cons in Hnd as [Hk Hnd].
  apply elem_of_cons in Hin as [Heq|Hin].
  - inversion Heq; subst k v'. rewrite String.eqb_refl.
    destruct (getitem_lang v) as [lang| |]; simpl; [|done..].
    destruct (str_eq language_code lang); [done|]. by apply scan_dict_miss.
  - destruct (String.eqb_spec lid k) as [->|_]; [|by apply IH].
    exfalso. apply Hk. apply list_elem_of_fmap. by exists (k, v).
Qed.

(** The loop of [in_exclude_list] over a dictionary looks at one entry
    only: the one whose key is the lexeme identifier. *)
Lemma scan_dict_lookup lid (m : gmap string json) :
  scan_dict lid (map_to_list m)
  = match m !! lid with
    | None => Returns false
    | Some v => lang <~ getitem_lang v ;; Returns (str_eq language_code lang)
    end.
Proof.
  destruct (m !! lid) as [v|] eqn:Hm.
  - apply scan_dict_hit; [apply NoDup_fst_map_to_list|].
    by apply elem_of_map_to_list.
  - apply scan_dict_miss. intros Hin.
    apply list_elem_of_fmap in Hin as [[k v] [-> Hin]].
    apply elem_of_map_to_list in Hin. simpl in *. congruence.
Qed.

Lemma getitem_lang_record word date lang :
  getitem_lang (exclusion_record word date lang) = Returns (JStr lang).
Proof. done. Qed.

Lemma save_absent data w :
  disk w = None ->
  save_to_exclude_list (Some data) w
  = (Returns tt,
     set_disk (Some (Document (JObj (<[form_id data :=
        exclusion_record (word data) (now_isoformat (log w)) language_code]> ∅)))) w).
Proof. intros H. unfold save_to_exclude_list. by rewrite H. Qed.

Lemma save_dict data w m :
  disk w = Some (Document (JObj m)) ->
  save_to_exclude_list (Some data) w
  = (Returns tt,
     set_disk (Some (Document (JObj (<[form_id data :=
        exclusion_record (word data) (now_isoformat (log w)) language_code]> m)))) w).
Proof. intros H. unfold save_to_exclude_list. by rewrite H. Qed.

Lemma in_exclude_list_dict data w m :
  disk w = Some (Document (JObj m)) ->
  in_exclude_list data w
  = (match m !! lid data with
     | None => Returns false
     | Some v => lang <~ getitem_lang v ;; Returns (str_eq language_code lang)
     end, w).
Proof.
  intros H. unfold in_exclude_list. rewrite H. simpl.
  by rewrite scan_dict_lookup.
Qed.

(** On a readable store both operations return, and the store stays
    readable. *)
Lemma in_exclude_list_ok data w :
  store_ok (disk w) -> exists b, in_exclude_list data w = (Returns b, w).
Proof.
  unfold store_ok. destruct (disk w) as [[| |[]]|] eqn:Hd; try done.
  - intros Hall. rewrite (in_exclude_list_dict _ _ _ Hd).
    destruct (m !! lid data) as [v|] eqn:Hm; [|by eexists].
    destruct (Hall _ _ Hm) as [l ->]. by eexists.
  - intros _. exists false. unfold in_exclude_list. by rewrite Hd.
Qed.

Lemma save_ok data w :
  store_ok (disk w) ->
  exists w', save_to_exclude_list (Some data) w = (Returns tt, w')
             /\ store_ok (disk w')
             /\ recorded (disk w') (form_id data) language_code
             /\ log w' = log w /\ stdin w' = stdin w.
Proof.
  unfold store_ok. destruct (disk w) as [[| |[]]|] eqn:Hd; try done.
  - intros Hall. rewrite (save_dict _ _ _ Hd). eexists; split; [done|].
    simpl. split; [|split; [|done]].
    + apply map_Forall_insert_2; [by eexists | done].
    + eexists _, _. split; [done|]. by rewrite lookup_insert_eq.
  - intros _. rewrite (save_absent _ _ Hd). eexists; split; [done|].
    simpl. split; [|split; [|done]].
    + apply map_Forall_insert_2; [by eexists | apply map_Forall_empty].
    + eexists _, _. split; [done|]. by rewrite lookup_insert_eq.
Qed.

(** C1.  The round trip of the exclusion store fails: [save_to_exclude_list]
    files the record under the form identifier, and [in_exclude_list] looks
    for the lexeme identifier among the keys.  For a form whose lexeme
    identifier differs from its form identifier and is not itself a key,
    the record is in the store right after the call and the query on the
    same store answers [False]. *)
Theorem exclusion_round_trip_misses data w :
  lid data ≠ form_id data ->
  (disk w = None
   \/ exists m, disk w = Some (Document (JObj m)) /\ m !! lid data = None) ->
  exists w', save_to_exclude_list (Some data) w = (Returns tt, w')
             /\ recorded (disk w') (form_id data) language_code
             /\ in_exclude_list data w' = (Returns false, w').
Proof.
  intros Hne [Hd|(m & Hd & Hm)].
  - rewrite (save_absent _ _ Hd). eexists; split; [done|]. split.
    + eexists _, _. split; [done|]. by rewrite lookup_insert_eq.
    + erewrite in_exclude_list_dict by done.
      rewrite lookup_insert_ne by done. by rewrite lookup_empty.
  - rewrite (save_dict _ _ _ Hd). eexists; split; [done|]. split.
    + eexists _, _. split; [done|]. by rewrite lookup_insert_eq.
    + erewrite in_exclude_list_dict by done.
      rewrite lookup_insert_ne by done. by rewrite Hm.
Qed.

(** What [process_result] comes to for a row whose data is [d]. *)
Lemma process_result_unfold result data d w :
  extract_data result = Returns d ->
  process_result result data w
  = save_to_exclude_list (Some data)
      (record (Printed ("Added to excludelist because of no " +:+
                        "suitable sentences were found"))
         (record (Searched d)
            (record (Printed ("Trying to find examples for the " +:+
                              category d +:+ " lexeme " +:+ "form: " +:+
                              word d +:+ " with id: " +:+ form_id d)) w))).
Proof.
  intros H. unfold process_result, get_sentences_from_apis, bind, lift.
  by rewrite H.
Qed.

(** C10.  A backing file that exists and is empty, or holds a text that is
    not JSON, is fatal for both store operations.  [save_to_exclude_list]
    prints its error and calls [exit(1)] on the empty file and raises
    [JSONDecodeError] on the unreadable one (after emptying the file);
    [in_exclude_list] raises [JSONDecodeError] on both.  Nothing catches
    the exception, so a visit of a row and [process_result] end the
    process with status 1 as well. *)
Theorem unreadable_store_is_fatal data w t :
  disk w = Some t ->
  t = Empty \/ t = Malformed ->
  exit_status (save_to_exclude_list (Some data) w).1 = Some 1%Z
  /\ (t = Empty ->
      save_to_exclude_list (Some data) w
      = (Exits 1, record (Printed "Error. json data is null.") w))
  /\ (t = Malformed ->
      save_to_exclude_list (Some data) w
      = (Raises JSONDecodeError, set_disk (Some Empty) w))
  /\ in_exclude_list data w = (Raises JSONDecodeError, w)
  /\ (forall result, extract_data result = Returns data ->
        visit result w = (Raises JSONDecodeError, w)
        /\ exit_status (process_result result data w).1 = Some 1%Z).
Proof.
  intros Hd Ht.
  assert (Hin : in_exclude_list data w = (Raises JSONDecodeError, w)).
  { unfold in_exclude_list. rewrite Hd. by destruct Ht as [-> | ->]. }
  assert (Hsave : forall w', disk w' = Some t ->
            exit_status (save_to_exclude_list (Some data) w').1 = Some 1%Z).
  { intros w' Hd'. unfold save_to_exclude_list. rewrite Hd'.
    by destruct Ht as [-> | ->]. }
  split; [by apply Hsave|].
  split; [intros ->; unfold save_to_exclude_list; by rewrite Hd|].
  split; [intros ->; unfold save_to_exclude_list; by rewrite Hd|].
  split; [done|].
  intros result Hres. split.
  - unfold visit, bind, lift. by rewrite Hres, Hin.
  - rewrite (process_result_unfold _ _ _ _ Hres). apply Hsave. exact Hd.
Qed.

(** ** What a visit of a row can do *)

Section Quiet.
Context {X : Type} (f : world -> X) (hidden : event -> Prop).
Hypothesis Hblind : blind f hidden.
Hypothesis Hprint : forall e, is_print e -> hidden e.
Hypothesis Hdisk : forall d w, f (set_disk d w) = f w.

Lemma preserves_print text : preserves f (print text).
Proof. apply preserves_emit. intros w. by apply Hblind, Hprint. Qed.

Lemma preserves_save data : preserves f (save_to_exclude_list data).
Proof.
  destruct data as [data|]; simpl.
  - intros w. unfold save_to_exclude_list.
    destruct (disk w) as [[| |v]|]; simpl; rewrite ?Hdisk; try done.
    + by apply Hblind, Hprint.
    + destruct v; simpl; by rewrite ?Hdisk.
  - apply preserves_bind; [apply preserves_print|].
    intros _. apply preserves_exit.
Qed.

Lemma preserves_in_exclude_list data : preserves f (in_exclude_list data).
Proof. intros w. unfold in_exclude_list. by destruct (disk w). Qed.

Lemma preserves_search data : preserves f (search_records data).
Proof. intros w. simpl. by apply Hblind, Hprint. Qed.

Lemma preserves_get_sentences result :
  preserves f (get_sentences_from_apis result).
Proof.
  apply preserves_bind; [apply preserves_lift|]. intros data.
  apply preserves_bind; [apply preserves_print|]. intros _.
  apply preserves_bind; [apply preserves_search|]. intros _.
  apply preserves_ret.
Qed.

Lemma preserves_process_result result data :
  preserves f (process_result result data).
Proof.
  intros w. destruct (extract_data result) as [d| |] eqn:Hres.
  - rewrite (process_result_unfold _ _ _ _ Hres), preserves_save.
    destruct Hblind as [Hrec _]. by rewrite !Hrec by by apply Hprint.
  - unfold process_result, get_sentences_from_apis, bind, lift.
    by rewrite Hres.
  - unfold process_result, get_sentences_from_apis, bind, lift.
    by rewrite Hres.
Qed.

Lemma preserves_visit result : preserves f (visit result).
Proof.
  apply preserves_bind; [apply preserves_lift|]. intros data.
  apply preserves_bind; [apply preserves_in_exclude_list|].
  intros []; [apply preserves_ret | apply preserves_process_result].
Qed.

Lemma sampling_loop_preserves results draws earlier w :
  f (world_of (sampling_loop results draws earlier w)) = f w.
Proof.
  revert earlier w. induction draws as [|d draws IH]; intros earlier w; simpl.
  - case_match; simpl; [|done]. by apply Hblind, Hprint.
  - case_match; simpl; [by apply Hblind, Hprint|].
    destruct (choice results d) as [result| |]; [|done..].
    case_bool_decide; [apply IH|].
    pose proof (preserves_visit result w) as Hv.
    destruct (visit result w) as [[[]| |] w']; simpl in *;
      [by rewrite IH | done..].
Qed.

Lemma process_lexeme_data_preserves results draws w :
  f (world_of (process_lexeme_data results draws w)) = f w.
Proof.
  unfold process_lexeme_data.
  destruct (collect_words results); [|done..].
  rewrite sampling_loop_preserves.
  destruct Hblind as [Hrec _]. by rewrite !Hrec by by apply Hprint.
Qed.

End Quiet.

(** C7.  Without a publication date [add_usage_example] returns [False] at
    once, whatever the other arguments are: all it does is print the
    message; no statement is built, nobody logs in and nothing is sent. *)
Theorem add_usage_example_needs_date
    (document_id sentence lid form_id sense_id word : option string) w :
  add_usage_example document_id sentence lid form_id sense_id word None w
  = (Returns PFalse,
     record (Printed ("Publication date of document {document_id} " +:+
                      "is missing. We have no fallback for that at the moment. " +:+
                      "Abort adding usage example.")) w).
Proof. reflexivity. Qed.

(** C2.  [get_sentences_from_apis] never returns a mapping.  For a row
    whose extracted data is [data], it returns [None] and [process_result]
    is the call of [save_to_exclude_list] for [data] after three lines of
    output: the operator is asked nothing, no edit is sent, and on a
    readable store the form is recorded. *)
Theorem no_sentences_ever result data w :
  extract_data result = Returns data ->
  (forall w0 mapping,
     (get_sentences_from_apis result w0).1 ≠ Returns (Some mapping))
  /\ (get_sentences_from_apis result w).1 = Returns None
  /\ process_result result data w
     = save_to_exclude_list (Some data)
         (record (Printed ("Added to excludelist because of no " +:+
                           "suitable sentences were found"))
            (record (Searched data)
               (record (Printed ("Trying to find examples for the " +:+
                                 category data +:+ " lexeme " +:+ "form: " +:+
                                 word data +:+ " with id: " +:+ form_id data))
                  w)))
  /\ asked (log (process_result result data w).2) = asked (log w)
  /\ submissions (log (process_result result data w).2) = submissions (log w)
  /\ (store_ok (disk w) ->
      exists w', process_result result data w = (Returns tt, w')
                 /\ recorded (disk w') (form_id data) language_code).
Proof.
  intros Hres. split; [|split; [|split; [|split; [|split]]]].
  - intros w0 mapping. unfold get_sentences_from_apis, bind, lift.
    by rewrite Hres.
  - unfold get_sentences_from_apis, bind, lift. by rewrite Hres.
  - by apply process_result_unfold.
  - apply (preserves_process_result _ _ blind_asked is_print_not_asked).
    done.
  - apply (preserves_process_result _ _ blind_submissions
             is_print_not_written). done.
  - intros Hok. rewrite (process_result_unfold _ _ _ _ Hres).
    edestruct (save_ok data) as (w' & -> & _ & Hrec & _); [|by eexists].
    exact Hok.
Qed.

(** ** The sampler never sends an edit *)

(** Running the loop on more draws continues the run on the first ones. *)
Lemma sampling_loop_app results ds1 ds2 earlier w :
  sampling_loop results (ds1 ++ ds2) earlier w
  = match sampling_loop results ds1 earlier w with
    | Drawing earlier' w' => sampling_loop results ds2 earlier' w'
    | halted => halted
    end.
Proof.
  revert earlier w. induction ds1 as [|d ds1 IH]; intros earlier w; simpl.
  - destruct (Z.of_nat (length earlier) =? sparql_results_size)%Z eqn:Hsz;
      [|done]. destruct ds2; simpl; by rewrite Hsz.
  - case_match; [done|].
    destruct (choice results d) as [result| |]; [|done..].
    case_bool_decide; [apply IH|].
    destruct (visit result w) as [[[]| |] w']; [apply IH | done..].
Qed.

Lemma process_lexeme_data_app results ds1 ds2 w :
  process_lexeme_data results (ds1 ++ ds2) w
  = match process_lexeme_data results ds1 w with
    | Drawing earlier' w' => sampling_loop results ds2 earlier' w'
    | halted => halted
    end.
Proof.
  unfold process_lexeme_data. destruct (collect_words results); [|done..].
  apply sampling_loop_app.
Qed.

Lemma sampler_never_submits results draws w :
  submissions (log (world_of (process_lexeme_data results draws w)))
  = submissions (log w).
Proof.
  apply (process_lexeme_data_preserves _ _ blind_submissions
           is_print_not_written). done.
Qed.

(** C3.  Take the moment the sampler draws a row it has not chosen before
    ([before] are the random numbers used so far, [w1] the world then), and
    let the form of that row be recorded in the exclusion store for the
    configured language at that moment.  However the run goes on, the edits
    naming that form at its end are those that were there when the row was
    drawn: none is submitted.  (No visit submits anything, as
    [sampler_never_submits] shows.) *)
Theorem no_edit_for_excluded_form results before d after w earlier w1 result data :
  process_lexeme_data results before w = Drawing earlier w1 ->
  choice results d = Returns result ->
  result ∉ earlier ->
  extract_data result = Returns data ->
  recorded (disk w1) (form_id data) language_code ->
  edits_for (form_id data)
    (log (world_of (process_lexeme_data results (before ++ d :: after) w)))
  = edits_for (form_id data) (log w1).
Proof.
  intros Hrun _ _ _ _. unfold edits_for.
  rewrite sampler_never_submits.
  pose proof (sampler_never_submits results before w) as H.
  rewrite Hrun in H. simpl in H. by rewrite H.
Qed.

(** ** The sense resolver *)

(** C9.  When the sense query has no rows, [sparql_query] prints that no
    lexemes were found and calls [exit(0)]: [prompt_sense_approval] does
    not return, and the branch written for zero senses is never run. *)
Theorem no_senses_ends_the_process sentence data w :
  endpoint (log w) (senses_query (lid data)) = Answer [] ->
  prompt_sense_approval sentence data w
  = (Exits 0,
     record (Printed ("No " +:+ language +:+ " lexemes containing " +:+
                      "both a sense, forms with " +:+
                      "grammatical features and missing a usage example was found"))
       (record (Queried (senses_query (lid data))) w)).
Proof.
  intros H. unfold prompt_sense_approval, fetch_senses, bind, sparql_query.
  by rewrite H.
Qed.

(** The branch for zero senses, were it run, counts the senses of the
    lexeme L35455 that carry P5137, whatever the entry at hand is. *)
Lemma zero_senses_branch_counts_one_lexeme data w :
  approve_sense data [] w
  = (count <- count_number_of_senses_with_P5137 "L35455" ;;
     if (0 <? count)%Z then
       print ("{language.title()} gloss is missing for {count} sense(s)" +:+
              ". Please fix it manually here: " +:+ wd_prefix +:+ lid data) ;;;
       sleep 5 ;;; ret None
     else ret None) w.
Proof. reflexivity. Qed.

(** [fetch_senses] never hands an empty dictionary to the resolver. *)
Lemma fetch_senses_nonempty lid w senses w' :
  fetch_senses lid w = (Returns senses, w') -> senses ≠ [].
Proof.
  unfold fetch_senses, bind, sparql_query, lift.
  destruct (endpoint (log w) (senses_query lid)) as [rows|]; [|done].
  destruct rows as [|r rows]; simpl; [done|].
  destruct (binding r "sense"); simpl; [|done..].
  destruct (binding r "gloss"); simpl; [|done..].
  destruct (collect_senses rows); simpl; [|done..].
  intros [= <- _]. done.
Qed.

(** ** Presenting sentences leaves the backing file alone *)

Lemma disk_yes_no_skip_loop prompt lines w :
  disk (yes_no_skip_loop prompt lines w).2 = disk w.
Proof.
  revert w. induction lines as [|answer rest IH]; intros w; simpl; [done|].
  repeat case_match; simpl; try done. by rewrite IH.
Qed.

Lemma disk_yes_no_loop prompt lines w :
  disk (yes_no_loop prompt lines w).2 = disk w.
Proof.
  revert w. induction lines as [|answer rest IH]; intros w; simpl; [done|].
  repeat case_match; simpl; try done. by rewrite IH.
Qed.

Lemma disk_choose_sense_loop senses lines w :
  disk (choose_sense_loop senses lines w).2 = disk w.
Proof.
  revert w. induction lines as [|answer rest IH]; intros w; simpl; [done|].
  repeat case_match; simpl; try done. by rewrite IH.
Qed.

Lemma disk_sparql_query query : preserves disk (sparql_query query).
Proof.
  intros w. unfold sparql_query.
  destruct (endpoint (log w) query) as [[|r rows]|]; done.
Qed.

Lemma disk_count lid : preserves disk (count_number_of_senses_with_P5137 lid).
Proof.
  apply preserves_bind; [apply disk_sparql_query|]. intros [|first rest].
  - apply preserves_raise.
  - apply preserves_bind; [apply preserves_lift|]. intros text.
    destruct (Str.python_int text); [apply preserves_ret | apply preserves_raise].
Qed.

Lemma disk_print text : preserves disk (print text).
Proof. by intros w. Qed.

Lemma disk_approve_sense data senses : preserves disk (approve_sense data senses).
Proof.
  unfold approve_sense. repeat case_match.
  - apply preserves_bind; [intros w; apply disk_yes_no_loop|]. intros [].
    + apply preserves_ret.
    + apply preserves_bind; [apply disk_print|]. intros _.
      apply preserves_bind; [done|]. intros _. apply preserves_ret.
  - apply preserves_raise.
  - apply preserves_bind; [apply disk_print|]. intros _.
    apply preserves_bind; [intros w; apply disk_choose_sense_loop|].
    intros []; apply preserves_ret.
  - apply preserves_bind; [apply disk_count|]. intros count. case_match.
    + apply preserves_bind; [apply disk_print|]. intros _.
      apply preserves_bind; [done|]. intros _. apply preserves_ret.
    + apply preserves_ret.
Qed.

Lemma disk_prompt_sense_approval sentence data :
  preserves disk (prompt_sense_approval sentence data).
Proof.
  apply preserves_bind; [|intros senses; apply disk_approve_sense].
  apply preserves_bind; [apply disk_sparql_query|].
  intros rows. apply preserves_lift.
Qed.

Lemma disk_add_usage_example document_id sentence lid form_id sense_id word date :
  preserves disk
    (add_usage_example document_id sentence lid form_id sense_id word date).
Proof.
  intros w. unfold add_usage_example.
  destruct date as [text|]; [|done].
  destruct (fromisoformat text); [|done].
  unfold bind, lift, when, print, emit, ret.
  destruct (wbi_form form_id); [|done..].
  destruct (wbi_sense sense_id); [|done..].
  repeat case_match; by simplify_eq.
Qed.

Lemma disk_add_to_watchlist lid : preserves disk (add_to_watchlist lid).
Proof.
  intros w. unfold add_to_watchlist, bind, when, print, emit, ret.
  repeat case_match; by simplify_eq.
Qed.

Lemma disk_present_sentence data sentence document_id date :
  preserves disk (present_sentence data sentence document_id date).
Proof.
  apply preserves_bind; [intros w; apply disk_yes_no_skip_loop|].
  intros [[]|]; try apply preserves_ret.
  apply preserves_bind; [apply disk_prompt_sense_approval|].
  intros [sel|]; [|apply preserves_ret].
  apply preserves_bind; [apply disk_add_usage_example|]. intros result.
  case_match; [|apply preserves_ret].
  apply preserves_bind; [apply disk_print|]. intros _.
  apply preserves_bind; [apply disk_add_to_watchlist|]. intros _.
  apply preserves_ret.
Qed.

Lemma disk_announce mapping total count sentence :
  preserves disk (announce mapping total count sentence).
Proof.
  apply preserves_bind; [apply disk_print|]. intros _.
  apply preserves_bind; [apply preserves_lift|]. intros rd.
  apply preserves_bind; [apply preserves_when, disk_print|]. intros _.
  apply preserves_ret.
Qed.

Lemma disk_present_next data mapping total count sentence :
  preserves disk (present_next data mapping total count sentence).
Proof.
  apply preserves_bind; [apply disk_announce|]. intros rd.
  apply disk_present_sentence.
Qed.

Lemma present_all_rejected data mapping total count sentences w w' :
  all_rejected data mapping total count sentences w w' ->
  present_all data mapping total count sentences w = (Returns tt, w')
  /\ disk w' = disk w.
Proof.
  induction 1 as [count w|count sentence rest w w1 w2 Hnext _ [IHrun IHdisk]].
  - done.
  - simpl. unfold bind at 1. rewrite Hnext. split; [done|].
    rewrite IHdisk.
    pose proof (disk_present_next data mapping total count sentence w) as Hd.
    by rewrite Hnext in Hd.
Qed.

(** X26.  The loop of [process_result] over the sentences of a mapping
    saves nothing at its end: when [present_sentence] answers [False] for
    each sentence, [curate] returns without a call of
    [save_to_exclude_list], and the backing file is what it was before. *)
Theorem all_rejected_not_excluded data mapping w w' :
  all_rejected data mapping (length (sorted_sentences mapping)) 1
    (sorted_sentences mapping) w w' ->
  curate data mapping w = (Returns tt, w') /\ disk w' = disk w.
Proof. apply present_all_rejected. Qed.

(** X27.  What follows the call of [add_usage_example] in the loop of
    [process_result], for an accepted sentence with an approved sense.
    When the call returns a true value, what is left of the loop is the
    line about the success, the call of [add_to_watchlist] and then, when
    that call returns, the call of [save_to_exclude_list]; the other
    sentences are not presented.  When it returns a value that is not
    true, nothing is saved and the loop goes on with the next sentence.
    In both cases the backing file is untouched up to that point. *)
Theorem after_submission data mapping total count sentence rest
    w rd w0 w1 sel w2 r w3 :
  announce mapping total count sentence w = (Returns rd, w0) ->
  yes_no_skip_question (suitable_prompt data sentence) w0
    = (Returns (Some true), w1) ->
  prompt_sense_approval sentence data w1 = (Returns (Some sel), w2) ->
  add_usage_example (document_id rd) (Some sentence) (Some (lid data))
    (Some (form_id data)) (Some (sel_sense_id sel)) (Some (word data))
    (date rd) w2 = (Returns r, w3) ->
  disk w3 = disk w
  /\ present_all data mapping total count (sentence :: rest) w
     = if truthy r
       then (print ("Successfully added usage example " +:+
                    "to " +:+ wd_prefix +:+ lid data) ;;;
             add_to_watchlist (lid data) ;;;
             save_to_exclude_list (Some data)) w3
       else present_all data mapping total (S count) rest w3.
Proof.
  intros Hann Hask Hsense Hadd. split.
  - pose proof (disk_announce mapping total count sentence w) as H0.
    pose proof (disk_yes_no_skip_loop
                  (suitable_prompt data sentence
                   +:+ " [(Y)es/(n)o/(s)kip this form]: ") (stdin w0) w0) as H1.
    pose proof (disk_prompt_sense_approval sentence data w1) as H2.
    pose proof (disk_add_usage_example (document_id rd) (Some sentence)
                  (Some (lid data)) (Some (form_id data))
                  (Some (sel_sense_id sel)) (Some (word data)) (date rd) w2)
      as H3.
    unfold yes_no_skip_question in Hask.
    rewrite Hann in H0. rewrite Hask in H1. rewrite Hsense in H2.
    rewrite Hadd in H3. simpl in *. congruence.
  - simpl. unfold present_next, present_sentence, bind.
    rewrite Hann, Hask, Hsense, Hadd.
    destruct (truthy r); [|done]. unfold print, emit.
    destruct (add_to_watchlist (lid data) _) as [[[]| |] ?]; done.
Qed.

(** ** The order of presentation *)

Section Sorted.
Context {A : Type} (key : A -> nat).

Lemma insert_by_perm x l : insert_by key x l ≡ₚ x :: l.
Proof.
  induction l as [|y l IH]; simpl; [done|].
  case_match; [done|]. rewrite IH. apply Permutation_swap.
Qed.

Lemma py_sorted_perm l : py_sorted key l ≡ₚ l.
Proof.
  induction l as [|x l IH]; simpl; [done|].
  by rewrite insert_by_perm, IH.
Qed.

Lemma insert_by_sorted x l :
  StronglySorted (fun a b => key a <= key b) l ->
  StronglySorted (fun a b => key a <= key b) (insert_by key x l).
Proof.
  induction 1 as [|y l Hs IH Hall]; simpl.
  - by repeat constructor.
  - destruct (Nat.leb_spec (key x) (key y)) as [Hle|Hlt].
    + constructor; [by constructor|]. constructor; [done|].
      eapply Forall_impl; [exact Hall|]. simpl. lia.
    + constructor; [done|]. rewrite insert_by_perm.
      constructor; [lia | done].
Qed.

Lemma py_sorted_sorted l :
  StronglySorted (fun a b => key a <= key b) (py_sorted key l).
Proof.
  induction l as [|x l IH]; simpl; [constructor|]. by apply insert_by_sorted.
Qed.

(** Stability: the elements with one and the same key keep their order. *)
Lemma insert_by_stable n x l :
  filter (fun a => key a = n) (insert_by key x l)
  = filter (fun a => key a = n) (x :: l).
Proof.
  induction l as [|y l IH]; simpl; [done|].
  destruct (Nat.leb_spec (key x) (key y)) as [Hle|Hlt]; [done|].
  rewrite filter_cons, IH, !filter_cons.
  repeat case_decide; try done. lia.
Qed.

Lemma py_sorted_stable n l :
  filter (fun a => key a = n) (py_sorted key l) = filter (fun a => key a = n) l.
Proof.
  induction l as [|x l IH]; simpl; [done|].
  by rewrite insert_by_stable, !filter_cons, IH.
Qed.

End Sorted.

Lemma getitem_elem {V} (mapping : list (string * V)) key :
  key ∈ mapping.*1 -> exists v, getitem mapping key = Returns v.
Proof.
  induction mapping as [|[k v] mapping IH]; simpl; intros Hin.
  - by apply elem_of_nil in Hin.
  - destruct (String.eqb_spec k key) as [->|Hne]; [by eexists|].
    apply elem_of_cons in Hin as [->|Hin]; [done | by apply IH].
Qed.

Lemma announce_log mapping total count sentence w :
  sentence ∈ mapping.*1 ->
  exists rd w0, announce mapping total count sentence w = (Returns rd, w0)
                /\ stdin w0 = stdin w /\ asked (log w0) = asked (log w).
Proof.
  intros Hin. destruct (getitem_elem mapping sentence Hin) as [rd Hrd].
  unfold announce, bind, lift, when, print, emit, ret. simpl. rewrite Hrd.
  destruct debug_sentences; eexists _, _; (split; [done|]); simpl;
    rewrite ?asked_snoc; done.
Qed.

(** The operator answers "n" to every sentence: each one is presented, in
    the order of the list, and rejected. *)
Lemma operator_rejects_all data mapping total sentences :
  forall count w lines,
  (forall s, s ∈ sentences -> s ∈ mapping.*1) ->
  stdin w = (replicate (length sentences) "n" ++ lines)%list ->
  exists w', all_rejected data mapping total count sentences w w'
             /\ stdin w' = lines
             /\ asked (log w')
                = (asked (log w) ++ (skip_prompt data <$> sentences))%list.
Proof.
  induction sentences as [|s rest IH]; intros count w lines Hin Hstdin.
  - exists w. split; [constructor|]. split; [done|]. by rewrite app_nil_r.
  - destruct (announce_log mapping total count s w) as (rd & w0 & Hann & Hs0 & Ha0).
    { apply Hin. by left. }
    simpl in Hstdin.
    set (w1 := record (Asked (skip_prompt data s) (Some "n"))
                 (set_stdin (replicate (length rest) "n" ++ lines)%list w0)).
    destruct (IH (S count) w1 lines) as (w' & Hrej & Hs' & Ha').
    { intros s' Hs'. apply Hin. by right. }
    { done. }
    exists w'. split; [|split; [done|]].
    + econstructor; [|exact Hrej].
      unfold present_next, present_sentence, bind, yes_no_skip_question.
      rewrite Hann, Hs0, Hstdin. done.
    + rewrite Ha'. unfold w1. simpl. unfold asked at 1.
      rewrite omap_app. simpl. fold (asked (log w0)).
      by rewrite Ha0, <-app_assoc.
Qed.

(** X25.  The loop of [process_result] takes the sentences of a mapping by
    their length in characters, not by their number of words:
    [sorted_sentences] is a rearrangement of the sentences of the mapping,
    ascending in [len], and sentences of the same length keep the order of
    the mapping.  When the operator rejects each sentence, [curate]
    presents the sentences in exactly that order. *)
Theorem presented_by_length data (mapping : batch) w lines :
  stdin w = (replicate (length mapping) "n" ++ lines)%list ->
  sorted_sentences mapping ≡ₚ mapping.*1
  /\ StronglySorted (fun a b => String.length a <= String.length b)
       (sorted_sentences mapping)
  /\ (forall n, filter (fun s => String.length s = n) (sorted_sentences mapping)
                = filter (fun s => String.length s = n) (mapping.*1))
  /\ exists w', curate data mapping w = (Returns tt, w')
                /\ asked (log w')
                   = (asked (log w)
                      ++ (skip_prompt data <$> sorted_sentences mapping))%list.
Proof.
  intros Hstdin.
  split; [apply py_sorted_perm|]. split; [apply py_sorted_sorted|].
  split; [intros n; apply py_sorted_stable|].
  assert (Hlen : length (sorted_sentences mapping) = length mapping).
  { unfold sorted_sentences. by rewrite py_sorted_perm, length_fmap. }
  destruct (operator_rejects_all data mapping
              (length (sorted_sentences mapping)) (sorted_sentences mapping)
              1 w lines) as (w' & Hrej & _ & Hasked).
  - intros s. unfold sorted_sentences. by rewrite py_sorted_perm.
  - by rewrite Hlen.
  - exists w'. split; [|done]. by apply present_all_rejected.
Qed.

(** ** The sampling loop *)

Lemma binding_no_exit result var code : binding result var ≠ Exits code.
Proof. unfold binding. by repeat case_match. Qed.

Lemma extract_data_no_exit result code : extract_data result ≠ Exits code.
Proof.
  unfold extract_data.
  destruct (binding result "l") eqn:H1; simpl;
    [|by apply binding_no_exit in H1|done].
  destruct (binding result "form") eqn:H2; simpl;
    [|by apply binding_no_exit in H2|done].
  destruct (binding result "word") eqn:H3; simpl;
    [|by apply binding_no_exit in H3|done].
  destruct (binding result "catLabel") eqn:H4; simpl;
    [done|by apply binding_no_exit in H4|done].
Qed.

Lemma getitem_lang_no_exit v code : getitem_lang v ≠ Exits code.
Proof. unfold getitem_lang. by repeat case_match. Qed.

Lemma scan_dict_no_exit lid items code : scan_dict lid items ≠ Exits code.
Proof.
  induction items as [|[k v] items IH]; simpl; [done|].
  case_match; [|done].
  destruct (getitem_lang v) eqn:Hv; simpl;
    [|by apply getitem_lang_no_exit in Hv|done].
  by case_match.
Qed.

Lemma list_getitem_no_exit xs x code : list_getitem xs x ≠ Exits code.
Proof. unfold list_getitem. by repeat case_match. Qed.

Lemma scan_list_no_exit whole items code : scan_list whole items ≠ Exits code.
Proof.
  induction items as [|x items IH]; simpl; [done|].
  destruct (list_getitem whole x) eqn:Hx; simpl;
    [done|by apply list_getitem_no_exit in Hx|done].
Qed.

Lemma in_exclude_list_no_exit data w code w' :
  in_exclude_list data w ≠ (Exits code, w').
Proof.
  unfold in_exclude_list. destruct (disk w) as [[| |v]|]; simpl; try done.
  intros [= H _]. revert H. destruct v; simpl; try done.
  - by destruct s.
  - apply scan_list_no_exit.
  - apply scan_dict_no_exit.
Qed.

Lemma save_exit_code data w code w' :
  save_to_exclude_list data w = (Exits code, w') -> code = 1%Z.
Proof.
  unfold save_to_exclude_list. destruct data as [data|]; simpl.
  - destruct (disk w) as [[| |v]|]; simpl; try done.
    + by intros [= <- _].
    + by destruct v.
  - by intros [= <- _].
Qed.

(** A visit that ends the process with [exit] does so with status 1. *)
Lemma visit_exit_code result w code w' :
  visit result w = (Exits code, w') -> code = 1%Z.
Proof.
  unfold visit, bind at 1, lift.
  destruct (extract_data result) as [data| |] eqn:Hres; simpl; try done.
  - unfold bind.
    destruct (in_exclude_list data w) as [[[]| |] w1] eqn:Hin; simpl;
      try done.
    + rewrite (process_result_unfold _ _ _ _ Hres). apply save_exit_code.
    + intros [= <- <-]. by apply in_exclude_list_no_exit in Hin.
  - intros [= <- _]. by apply extract_data_no_exit in Hres.
Qed.

Lemma choice_elem results d result :
  choice results d = Returns result -> result ∈ results.
Proof.
  unfold choice. destruct (results !! _) eqn:H; [|done].
  intros [= <-]. by eapply list_elem_of_lookup_2.
Qed.

Lemma distinct_length (earlier results : list row) :
  NoDup earlier -> earlier ⊆ results ->
  length earlier <= length (remove_dups results).
Proof.
  intros Hnd Hsub. apply submseteq_length, NoDup_submseteq; [done|].
  intros x Hx. apply elem_of_remove_dups. by apply Hsub.
Qed.

(** The completion message needs as many different rows as the configured
    size of the result: a result with fewer rows, or with rows that are
    equal, never gets there, whatever the random draws are. *)
Lemma choice_no_exit results d code : choice results d ≠ Exits code.
Proof. unfold choice. by case_match. Qed.

Lemma sampling_needs_distinct_rows results draws earlier w :
  NoDup earlier -> earlier ⊆ results ->
  (Z.of_nat (length (remove_dups results)) < sparql_results_size)%Z ->
  ~ completed (sampling_loop results draws earlier w).
Proof.
  intros Hnd Hsub Hfew. revert earlier w Hnd Hsub.
  induction draws as [|d draws IH]; intros earlier w Hnd Hsub;
    pose proof (distinct_length _ _ Hnd Hsub) as Hlen; simpl.
  - destruct (Z.eqb_spec (Z.of_nat (length earlier)) sparql_results_size);
      [lia | by intros []].
  - destruct (Z.eqb_spec (Z.of_nat (length earlier)) sparql_results_size);
      [lia|].
    destruct (choice results d) as [result|code|e] eqn:Hch;
      [|by apply choice_no_exit in Hch|by intros []].
    case_bool_decide as Hin; [by apply IH|].
    destruct (visit result w) as [[[]|code|e] w'] eqn:Hv; simpl.
    + apply IH.
      * apply NoDup_app. split; [done|]. split; [|apply NoDup_singleton].
        intros x Hx Hx'. apply list_elem_of_singleton in Hx'. by subst.
      * intros x Hx. apply elem_of_app in Hx as [Hx|Hx]; [by apply Hsub|].
        apply list_elem_of_singleton in Hx. subst.
        by eapply choice_elem.
    + apply visit_exit_code in Hv. subst. by intros [].
    + by intros [].
Qed.

Lemma collect_words_no_exit results code : collect_words results ≠ Exits code.
Proof.
  induction results as [|r results IH]; simpl; [done|].
  destruct (extract_data r) eqn:Hr; simpl;
    [|by apply extract_data_no_exit in Hr|done].
  by destruct (collect_words results).
Qed.

Lemma sampler_needs_distinct_rows results draws w :
  (Z.of_nat (length (remove_dups results)) < sparql_results_size)%Z ->
  ~ completed (process_lexeme_data results draws w).
Proof.
  intros Hfew. unfold process_lexeme_data.
  destruct (collect_words results) as [words|code|e] eqn:Hw;
    [|by apply collect_words_no_exit in Hw|by intros []].
  apply sampling_needs_distinct_rows; [apply NoDup_nil_2 | | done].
  intros x Hx. by apply elem_of_nil in Hx.
Qed.

Lemma collect_words_ok results :
  Forall (fun r => exists d, extract_data r = Returns d) results ->
  exists words, collect_words results = Returns words.
Proof.
  induction 1 as [|r results [d Hd] _ [words IH]]; simpl; [by eexists|].
  rewrite Hd, IH. by eexists.
Qed.

(** On a readable store the visit of a row returns and leaves a readable
    store. *)
Lemma visit_ok result w :
  (exists d, extract_data result = Returns d) -> store_ok (disk w) ->
  exists w', visit result w = (Returns tt, w') /\ store_ok (disk w').
Proof.
  intros [d Hd] Hok. unfold visit, bind at 1, lift. rewrite Hd. unfold bind.
  destruct (in_exclude_list_ok d w Hok) as [b ->].
  destruct b; [by exists w|].
  rewrite (process_result_unfold _ _ _ _ Hd).
  edestruct (save_ok d) as (w' & -> & Hok' & _); [|by exists w'].
  exact Hok.
Qed.

Lemma sampling_completes results :
  NoDup results ->
  Forall (fun r => exists d, extract_data r = Returns d) results ->
  Z.of_nat (length results) = sparql_results_size ->
  forall draws earlier w,
  NoDup earlier -> earlier ⊆ results ->
  (forall r, r ∈ results ->
     r ∈ earlier \/ exists d, d ∈ draws /\ choice results d = Returns r) ->
  store_ok (disk w) ->
  completed (sampling_loop results draws earlier w)
  /\ visited (sampling_loop results draws earlier w) ≡ₚ results.
Proof.
  intros Hndr Hwf Hsize.
  induction draws as [|d draws IH]; intros earlier w Hnd Hsub Hcover Hok.
  - assert (results ⊆ earlier) as Hall.
    { intros r Hr. destruct (Hcover r Hr) as [|(d & Hd & _)]; [done|].
      by apply elem_of_nil in Hd. }
    assert (earlier ≡ₚ results) as Hperm.
    { apply NoDup_Permutation; [done..|]. intros x. split; auto. }
    simpl. rewrite Hperm, Hsize, Z.eqb_refl. simpl.
    split; [apply last_snoc | done].
  - simpl.
    destruct (Z.eqb_spec (Z.of_nat (length earlier)) sparql_results_size)
      as [Heq|Hne]; simpl.
    { split; [apply last_snoc|].
      apply submseteq_length_Permutation; [by apply NoDup_submseteq | lia]. }
    destruct (choice results d) as [result| |] eqn:Hch.
    + pose proof (choice_elem _ _ _ Hch) as Hres.
      case_bool_decide as Hin.
      * apply IH; [done..| |done]. intros r Hr.
        destruct (Hcover r Hr) as [|(d' & Hd' & Hch')]; [by left|].
        apply elem_of_cons in Hd' as [->|Hd']; [|right; eauto].
        left. congruence.
      * destruct (visit_ok result w) as (w' & -> & Hok'); [|done|].
        { rewrite Forall_forall in Hwf. by apply Hwf. }
        apply IH; [| | |done].
        -- apply NoDup_app. split; [done|]. split; [|apply NoDup_singleton].
           intros x Hx Hx'. apply list_elem_of_singleton in Hx'. by subst.
        -- intros x Hx. apply elem_of_app in Hx as [Hx|Hx]; [by apply Hsub|].
           apply list_elem_of_singleton in Hx. by subst.
        -- intros r Hr.
           destruct (Hcover r Hr) as [|(d' & Hd' & Hch')];
             [left; apply elem_of_app; by left|].
           apply elem_of_cons in Hd' as [->|Hd']; [|right; eauto].
           left. apply elem_of_app. right. apply list_elem_of_singleton.
           congruence.
    + exfalso. unfold choice in Hch. by destruct (results !! _).
    + exfalso. unfold choice in Hch.
      destruct (results !! _) eqn:Hl; [done|].
      apply lookup_ge_None in Hl.
      assert (length results ≠ 0).
      { pose proof (distinct_length _ _ Hnd Hsub).
        pose proof (submseteq_length _ _
                      (NoDup_submseteq _ _ Hnd Hsub)). lia. }
      pose proof (Nat.mod_upper_bound d (length results)). lia.
Qed.

(** X24.  Let the result hold N rows that are pairwise different and have
    the four bindings, let N be the configured size of the result, let the
    exclusion store be readable, and let the random draws hit every row at
    least once.  Then the loop visits every row exactly once, prints the
    completion message and ends the process with status 0, however many of
    the rows the exclusion store filters out. *)
Theorem sampler_visits_every_row_once results draws w :
  NoDup results ->
  Forall (fun r => exists d, extract_data r = Returns d) results ->
  Z.of_nat (length results) = sparql_results_size ->
  (forall r, r ∈ results ->
     exists d, d ∈ draws /\ choice results d = Returns r) ->
  store_ok (disk w) ->
  completed (process_lexeme_data results draws w)
  /\ visited (process_lexeme_data results draws w) ≡ₚ results
  /\ NoDup (visited (process_lexeme_data results draws w)).
Proof.
  intros Hnd Hwf Hsize Hcover Hok.
  assert (completed (process_lexeme_data results draws w)
          /\ visited (process_lexeme_data results draws w) ≡ₚ results)
    as [Hc Hp].
  { unfold process_lexeme_data.
    destruct (collect_words_ok results Hwf) as [words ->].
    apply sampling_completes; try done.
    - apply NoDup_nil_2.
    - intros x Hx. by apply elem_of_nil in Hx.
    - intros r Hr. right. by apply Hcover. }
  split; [done|]. split; [done|]. by rewrite Hp.
Qed.

End Workflow.

(** * The properties on the sample data *)

Import Sample.

(** C1, at a concrete form: the lexeme L35455 with its form L35455-F1 and
    no backing file.  The record is saved, and the query answers [False]. *)
Lemma exclusion_round_trip_misses_witness :
  lid hus_data ≠ form_id hus_data
  /\ exists w',
       save_to_exclude_list (cfg:=swedish 1) (env:=services [])
         (Some hus_data) (fresh []) = (Returns tt, w')
       /\ recorded (disk w') "L35455-F1" "sv"
       /\ in_exclude_list (cfg:=swedish 1) hus_data w' = (Returns false, w').
Proof.
  assert (lid hus_data ≠ form_id hus_data) as Hne by (by intros [=]).
  split; [exact Hne|].
  apply (exclusion_round_trip_misses (cfg:=swedish 1) (env:=services [])
           hus_data (fresh []) Hne).
  left. reflexivity.
Defined.

(** C2, for the row of the form L35455-F1 and no backing file. *)
Lemma no_sentences_ever_witness :
  extract_data hus = Returns hus_data
  /\ (get_sentences_from_apis (env:=services []) hus (fresh [])).1 = Returns None
  /\ exists w', process_result (cfg:=swedish 1) (env:=services [])
                  hus hus_data (fresh []) = (Returns tt, w')
                /\ recorded (disk w') "L35455-F1" "sv".
Proof.
  assert (extract_data hus = Returns hus_data) as Hrow by (vm_compute; reflexivity).
  split; [exact Hrow|].
  destruct (no_sentences_ever (cfg:=swedish 1) (env:=services [])
              hus hus_data (fresh []) Hrow) as (_ & Hnone & _ & _ & _ & Hsave).
  split; [exact Hnone|]. apply Hsave. exact I.
Defined.

(** C3, for a store that lists the form L35455-F1 when its row is drawn:
    the row is not filtered out, and still no edit is sent. *)
Lemma no_edit_for_excluded_form_witness :
  process_lexeme_data (cfg:=swedish 1) (env:=services [])
    [hus] [] (with_file listed []) = Drawing [] first_draw
  /\ choice [hus] 0 = Returns hus
  /\ extract_data hus = Returns hus_data
  /\ recorded (disk first_draw) "L35455-F1" "sv"
  /\ edits_for "L35455-F1"
       (log (world_of (process_lexeme_data (cfg:=swedish 1) (env:=services [])
                         [hus] [0] (with_file listed []))))
     = edits_for "L35455-F1" (log first_draw).
Proof.
  assert (process_lexeme_data (cfg:=swedish 1) (env:=services [])
            [hus] [] (with_file listed []) = Drawing [] first_draw) as Hrun
    by (vm_compute; reflexivity).
  assert (choice [hus] 0 = Returns hus) as Hch by reflexivity.
  assert (extract_data hus = Returns hus_data) as Hrow
    by (vm_compute; reflexivity).
  assert (recorded (disk first_draw) "L35455-F1" "sv") as Hrec.
  { exists (<["L35455-F1" :=
              exclusion_record "hus" "2021-01-01T00:00:00" "sv"]> ∅),
      (exclusion_record "hus" "2021-01-01T00:00:00" "sv").
    split; [reflexivity|]. split; [apply lookup_insert_eq | reflexivity]. }
  repeat (split; [assumption|]).
  exact (no_edit_for_excluded_form (cfg:=swedish 1) (env:=services [])
           [hus] [] 0 [] (with_file listed []) [] first_draw hus hus_data
           Hrun Hch (not_elem_of_nil hus) Hrow Hrec).
Defined.

(** X24, on two rows and the draws 0, 0, 1. *)
Lemma sampler_visits_every_row_once_witness :
  NoDup [hus; bil]
  /\ completed (process_lexeme_data (cfg:=swedish 2) (env:=services [])
                  [hus; bil] [0; 0; 1] (fresh []))
  /\ visited (process_lexeme_data (cfg:=swedish 2) (env:=services [])
                [hus; bil] [0; 0; 1] (fresh [])) ≡ₚ [hus; bil].
Proof.
  assert (NoDup [hus; bil]) as Hnd.
  { apply (bool_decide_unpack _). vm_compute. exact I. }
  split; [exact Hnd|].
  destruct (sampler_visits_every_row_once (cfg:=swedish 2) (env:=services [])
              [hus; bil] [0; 0; 1] (fresh [])) as (Hc & Hp & _).
  - exact Hnd.
  - repeat constructor; eexists; vm_compute; reflexivity.
  - reflexivity.
  - intros r Hr. apply elem_of_cons in Hr as [->|Hr].
    + exists 0. split; [by left | reflexivity].
    + apply list_elem_of_singleton in Hr as ->.
      exists 1. split; [by right; right; left | reflexivity].
  - exact I.
  - split; assumption.
Defined.

(** X25 on the three sample sentences, each rejected: the sentence of two
    words comes last, having the most characters. *)
Lemma presented_by_length_witness :
  stdin (fresh ["n"; "n"; "n"]) = (replicate 3 "n" ++ [])%list
  /\ sorted_sentences three_sentences = [five_words; eight_words; two_words]
  /\ exists w', curate (cfg:=swedish 1) (env:=services [])
                  hus_data three_sentences (fresh ["n"; "n"; "n"])
                = (Returns tt, w')
                /\ asked (log w')
                   = skip_prompt hus_data
                       <$> [five_words; eight_words; two_words].
Proof.
  split; [reflexivity|]. split; [reflexivity|].
  destruct (presented_by_length (cfg:=swedish 1) (env:=services [])
              hus_data three_sentences (fresh ["n"; "n"; "n"]) [] eq_refl)
    as (_ & _ & _ & w' & Hrun & Hasked).
  exists w'. split; [exact Hrun | exact Hasked].
Defined.

(** X26 on the three sample sentences, each rejected by the operator. *)
Lemma all_rejected_not_excluded_witness :
  exists w',
    all_rejected (cfg:=swedish 1) (env:=services []) hus_data three_sentences
      (length (sorted_sentences three_sentences)) 1
      (sorted_sentences three_sentences) (fresh ["n"; "n"; "n"]) w'
    /\ curate (cfg:=swedish 1) (env:=services [])
         hus_data three_sentences (fresh ["n"; "n"; "n"]) = (Returns tt, w')
    /\ disk w' = None.
Proof.
  destruct (operator_rejects_all (cfg:=swedish 1) (env:=services [])
              hus_data three_sentences
              (length (sorted_sentences three_sentences))
              (sorted_sentences three_sentences) 1 (fresh ["n"; "n"; "n"]) [])
    as (w' & Hrej & _).
  - intros s. unfold sorted_sentences. by rewrite py_sorted_perm.
  - reflexivity.
  - exists w'. split; [exact Hrej|].
    exact (all_rejected_not_excluded (cfg:=swedish 1) (env:=services [])
             hus_data three_sentences (fresh ["n"; "n"; "n"]) w' Hrej).
Defined.

(** X27: the operator accepts the sentence and the only sense, the edit is
    written, and the loop ends with the watch list and the save. *)
Lemma after_submission_witness :
  exists w3,
    disk w3 = None
    /\ present_all (cfg:=swedish 1) (env:=services building)
         hus_data one_sentence 1 1 ["ett hus"] (fresh ["y"; "y"])
       = (print "Successfully added usage example to http://www.wikidata.org/entity/L35455" ;;;
          add_to_watchlist (cfg:=swedish 1) (env:=services building) "L35455" ;;;
          save_to_exclude_list (cfg:=swedish 1) (env:=services building)
            (Some hus_data)) w3.
Proof.
  eexists.
  refine (after_submission (cfg:=swedish 1) (env:=services building)
            hus_data one_sentence 1 1 "ett hus" [] (fresh ["y"; "y"])
            _ _ _ _ _ (PText "L35455") _ _ _ _ _).
  - reflexivity.
  - reflexivity.
  - reflexivity.
  - reflexivity.
Defined.

(** The loop after a submission that fails: the operator accepts the first
    sentence and the only sense; the sentence has no publication date, so
    [add_usage_example] is called and returns [False].  The second
    sentence is then presented and rejected, and nothing is saved. *)
Example loop_goes_on_after_failed_submission :
  curate (cfg:=swedish 1) (env:=services building)
    hus_data two_sentences (fresh ["y"; "y"; "n"])
  = (Returns tt,
     {| disk := None; stdin := []; login_instance := None;
        log := [Printed "Presenting sentence 1/2";
                Asked (skip_prompt hus_data "hus") (Some "y");
                Queried (senses_query (cfg:=swedish 1) "L35455");
                Asked one_sense_prompt (Some "y");
                Printed abort_message;
                Printed "Presenting sentence 2/2";
                Asked (skip_prompt hus_data "ett hus") (Some "n")] |}).
Proof. vm_compute. reflexivity. Qed.

(** An identifier of a form that the library refuses ends
    [add_usage_example] before the login: nothing is printed, nobody logs
    in and nothing is sent. *)
Example refused_form_identifier :
  add_usage_example (cfg:=swedish 1) (env:=services building)
    (Some "H2") (Some "ett hus") (Some "L35455") (Some "hus")
    (Some "L35455-S1") (Some "hus") (Some "2020-01-02") (fresh [])
  = (Raises ValueError, fresh []).
Proof. reflexivity. Qed.

(** C9, for an endpoint that has no sense of the lexeme. *)
Lemma no_senses_ends_the_process_witness :
  endpoint (environment:=services []) []
    (senses_query (cfg:=swedish 1) "L35455") = Answer []
  /\ (prompt_sense_approval (cfg:=swedish 1) (env:=services [])
        "ett hus" hus_data (fresh ["y"])).1 = Exits 0.
Proof.
  split; [reflexivity|].
  rewrite (no_senses_ends_the_process (cfg:=swedish 1) (env:=services [])
             "ett hus" hus_data (fresh ["y"]) eq_refl).
  reflexivity.
Defined.

(** C10, for a backing file that is not JSON. *)
Lemma unreadable_store_is_fatal_witness :
  disk (with_file Malformed []) = Some Malformed
  /\ exit_status (save_to_exclude_list (cfg:=swedish 1) (env:=services [])
                    (Some hus_data) (with_file Malformed [])).1 = Some 1%Z
  /\ in_exclude_list (cfg:=swedish 1) hus_data (with_file Malformed [])
     = (Raises JSONDecodeError, with_file Malformed []).
Proof.
  split; [reflexivity|].
  destruct (unreadable_store_is_fatal (cfg:=swedish 1) (env:=services [])
              hus_data (with_file Malformed []) Malformed eq_refl
              (or_intror eq_refl)) as (Hsave & _ & _ & Hin & _).
  split; [exact Hsave | exact Hin].
Defined.

(** * Further properties of the code *)

Section More.
Context {cfg : config} {env : environment}.

(** ** The exclusion store *)

(** X1.  On a store that is a dictionary, [save_to_exclude_list] writes the
    record of the form under its form identifier and leaves every other
    entry as it was; saving the same form again changes no key (the record
    is replaced). *)
Theorem save_keeps_other_records data w m :
  disk w = Some (Document (JObj m)) ->
  exists m' w',
    save_to_exclude_list (Some data) w = (Returns tt, w')
    /\ disk w' = Some (Document (JObj m'))
    /\ m' !! form_id data
       = Some (exclusion_record (word data) (now_isoformat (log w))
                 language_code)
    /\ (forall k, k ≠ form_id data -> m' !! k = m !! k)
    /\ exists m'' w'',
         save_to_exclude_list (Some data) w' = (Returns tt, w'')
         /\ disk w'' = Some (Document (JObj m''))
         /\ dom m'' = dom m'.
Proof.
  intros Hd. rewrite (save_dict _ _ _ Hd).
  eexists _, _. split; [done|]. split; [done|].
  split; [by rewrite lookup_insert_eq|].
  split; [intros k Hk; by rewrite lookup_insert_ne|].
  erewrite save_dict by done.
  eexists _, _. split; [done|]. split; [done|].
  by rewrite insert_insert_eq, !dom_insert_L.
Qed.

(** X2.  On a store that is a dictionary, [in_exclude_list] answers [True]
    exactly when the lexeme identifier of the data is a key whose record
    has the configured language code; the other entries, and their order,
    do not matter, and nothing is changed. *)
Theorem in_exclude_list_by_lexeme_id data w m :
  disk w = Some (Document (JObj m)) ->
  in_exclude_list data w = (Returns true, w)
  <-> exists v, m !! lid data = Some v
                /\ getitem_lang v = Returns (JStr language_code).
Proof.
  intros Hd. rewrite (in_exclude_list_dict _ _ _ Hd). split.
  - destruct (m !! lid data) as [v|]; [|done].
    destruct (getitem_lang v) as [lang| |] eqn:Hv; simpl;
      [|intros [=]|intros [=]].
    intros [= Heq]. exists v. split; [done|].
    destruct lang; simpl in Heq; try done.
    apply String.eqb_eq in Heq. by subst.
  - intros (v & -> & ->). simpl. by rewrite String.eqb_refl.
Qed.

(** X3.  A save that fails on the content of the file destroys it: when
    the file holds a text that is not JSON, or JSON that is not a
    dictionary, [save_to_exclude_list] raises and leaves the file empty,
    and the next save ends the process with status 1. *)
Theorem failed_save_empties_file data w t :
  disk w = Some t ->
  t = Malformed \/ (exists v, t = Document v /\ is_dict v = false) ->
  exists e,
    save_to_exclude_list (Some data) w = (Raises e, set_disk (Some Empty) w)
    /\ forall data',
         save_to_exclude_list (Some data') (set_disk (Some Empty) w)
         = (Exits 1, record (Printed "Error. json data is null.")
                       (set_disk (Some Empty) w)).
Proof.
  intros Hd Ht.
  assert (exists e, save_to_exclude_list (Some data) w
                    = (Raises e, set_disk (Some Empty) w)) as [e He].
  { unfold save_to_exclude_list. rewrite Hd.
    destruct Ht as [->|(v & -> & Hv)]; [by eexists|].
    destruct v; simpl in *; try done; by eexists. }
  exists e. split; [done|]. intros data'. reflexivity.
Qed.

(** ** Counting words *)

Lemma split_space_length s :
  length (Str.split_space s) = S (count_spaces s).
Proof.
  induction s as [|c s IH]; simpl; [done|].
  destruct (Ascii.eqb c " "); simpl; [by rewrite IH|].
  destruct (Str.split_space s); simpl in *; [done | by rewrite <-IH].
Qed.

(** X4.  [count_words] is one more than the number of spaces left after
    stripping: every single space separates two words, so two spaces in a
    row count an empty word, and no text has zero words. *)
Theorem count_words_spaces s :
  count_words s = S (count_spaces (Str.strip s)) /\ 0 < count_words s.
Proof.
  unfold count_words. rewrite split_space_length. split; [done | lia].
Qed.

(** ** The questions *)

Lemma yes_no_skip_loop_step prompt answer rest w :
  yes_no_skip_loop prompt (answer :: rest) w
  = match skip_reply answer with
    | Some r =>
        (Returns r, record (Asked prompt (Some answer)) (set_stdin rest w))
    | None =>
        yes_no_skip_loop prompt rest
          (record (Asked prompt (Some answer)) (set_stdin rest w))
    end.
Proof.
  destruct answer as [|c answer]; [done|].
  simpl. unfold Str.first_lower_in, Str.first_lower_is, Str.first_lower_in.
  repeat case_decide; repeat case_bool_decide; try done;
    repeat match goal with
           | H : _ ∈ _ |- _ =>
               rewrite ?elem_of_cons, elem_of_nil in H
           | H : ¬ (_ ∈ _) |- _ =>
               rewrite ?elem_of_cons, elem_of_nil in H
           end; intuition congruence.
Qed.

Lemma yes_no_loop_step prompt answer rest w :
  yes_no_loop prompt (answer :: rest) w
  = match yes_no_reply answer with
    | Some r =>
        (Returns r, record (Asked prompt (Some answer)) (set_stdin rest w))
    | None =>
        yes_no_loop prompt rest
          (record (Asked prompt (Some answer)) (set_stdin rest w))
    end.
Proof.
  destruct answer as [|c answer]; [done|].
  simpl. unfold Str.first_lower_in, Str.first_lower_is, Str.first_lower_in.
  repeat case_decide; repeat case_bool_decide; try done;
    repeat match goal with
           | H : _ ∈ _ |- _ =>
               rewrite ?elem_of_cons, elem_of_nil in H
           | H : ¬ (_ ∈ _) |- _ =>
               rewrite ?elem_of_cons, elem_of_nil in H
           end; intuition congruence.
Qed.

Lemma yes_no_skip_loop_found prompt junk answer r rest :
  Forall (fun a => skip_reply a = None) junk ->
  skip_reply answer = Some r ->
  forall w, exists w',
    yes_no_skip_loop prompt (junk ++ answer :: rest)%list w = (Returns r, w')
    /\ stdin w' = rest
    /\ log w' = (log w ++ typed prompt (junk ++ [answer]))%list
    /\ disk w' = disk w /\ login_instance w' = login_instance w.
Proof.
  intros Hjunk Hr. induction Hjunk as [|a junk Ha _ IH]; intros w; cbn [app].
  - rewrite yes_no_skip_loop_step, Hr. by eexists.
  - rewrite yes_no_skip_loop_step, Ha.
    destruct (IH (record (Asked prompt (Some a))
                    (set_stdin (junk ++ answer :: rest)%list w)))
      as (w' & -> & Hs & Hl & Hd & Hi).
    exists w'. split; [done|]. split; [done|].
    split; [|done]. rewrite Hl. cbn. by rewrite <-app_assoc.
Qed.

Lemma yes_no_loop_found prompt junk answer r rest :
  Forall (fun a => yes_no_reply a = None) junk ->
  yes_no_reply answer = Some r ->
  forall w, exists w',
    yes_no_loop prompt (junk ++ answer :: rest)%list w = (Returns r, w')
    /\ stdin w' = rest
    /\ log w' = (log w ++ typed prompt (junk ++ [answer]))%list
    /\ disk w' = disk w /\ login_instance w' = login_instance w.
Proof.
  intros Hjunk Hr. induction Hjunk as [|a junk Ha _ IH]; intros w; cbn [app].
  - rewrite yes_no_loop_step, Hr. by eexists.
  - rewrite yes_no_loop_step, Ha.
    destruct (IH (record (Asked prompt (Some a))
                    (set_stdin (junk ++ answer :: rest)%list w)))
      as (w' & -> & Hs & Hl & Hd & Hi).
    exists w'. split; [done|]. split; [done|].
    split; [|done]. rewrite Hl. cbn. by rewrite <-app_assoc.
Qed.

Lemma yes_no_skip_question_found message junk answer r rest w :
  Forall (fun a => skip_reply a = None) junk ->
  skip_reply answer = Some r ->
  stdin w = (junk ++ answer :: rest)%list ->
  exists w',
    yes_no_skip_question message w = (Returns r, w')
    /\ stdin w' = rest
    /\ log w'
       = (log w ++ typed (message +:+ " [(Y)es/(n)o/(s)kip this form]: ")
                     (junk ++ [answer]))%list
    /\ disk w' = disk w /\ login_instance w' = login_instance w.
Proof.
  intros Hjunk Hr Hin. unfold yes_no_skip_question. rewrite Hin.
  by apply yes_no_skip_loop_found.
Qed.

(** X5.  [yes_no_skip_question] asks again for every line that is not an
    answer and returns on the first line that is one: an empty line and a
    line starting with y or Y give [True], n or N give [False], s or S give
    [None].  The lines read are used up, the rest of the input is left, and
    nothing else changes. *)
Theorem yes_no_skip_question_answer message junk answer r rest w :
  Forall (fun a => skip_reply a = None) junk ->
  skip_reply answer = Some r ->
  stdin w = (junk ++ answer :: rest)%list ->
  exists w',
    yes_no_skip_question message w = (Returns r, w')
    /\ stdin w' = rest
    /\ log w'
       = (log w ++ typed (message +:+ " [(Y)es/(n)o/(s)kip this form]: ")
                     (junk ++ [answer]))%list
    /\ disk w' = disk w /\ login_instance w' = login_instance w.
Proof.
  intros Hjunk Hr Hin. unfold yes_no_skip_question. rewrite Hin.
  by apply yes_no_skip_loop_found.
Qed.

Lemma yes_no_question_found message junk answer r rest w :
  Forall (fun a => yes_no_reply a = None) junk ->
  yes_no_reply answer = Some r ->
  stdin w = (junk ++ answer :: rest)%list ->
  exists w',
    yes_no_question message w = (Returns r, w')
    /\ stdin w' = rest
    /\ log w' = (log w ++ typed (message +:+ " [Y/n]: ")
                            (junk ++ [answer]))%list
    /\ disk w' = disk w /\ login_instance w' = login_instance w.
Proof.
  intros Hjunk Hr Hin. unfold yes_no_question. rewrite Hin.
  by apply yes_no_loop_found.
Qed.

(** X6.  [yes_no_question] does the same with two answers: an empty line
    and y or Y give [True], n or N give [False]; every other line, a line
    starting with s included, is asked again. *)
Theorem yes_no_question_answer message junk answer r rest w :
  Forall (fun a => yes_no_reply a = None) junk ->
  yes_no_reply answer = Some r ->
  stdin w = (junk ++ answer :: rest)%list ->
  exists w',
    yes_no_question message w = (Returns r, w')
    /\ stdin w' = rest
    /\ log w' = (log w ++ typed (message +:+ " [Y/n]: ")
                            (junk ++ [answer]))%list
    /\ disk w' = disk w /\ login_instance w' = login_instance w.
Proof.
  intros Hjunk Hr Hin. unfold yes_no_question. rewrite Hin.
  by apply yes_no_loop_found.
Qed.

Lemma skip_reply_none_yes_no answer :
  skip_reply answer = None -> yes_no_reply answer = None.
Proof.
  destruct answer as [|c answer]; [done|]. unfold skip_reply, yes_no_reply.
  by repeat case_decide.
Qed.

Lemma yes_no_skip_loop_eof prompt lines :
  Forall (fun a => skip_reply a = None) lines ->
  forall w, exists w',
    yes_no_skip_loop prompt lines w = (Raises EOFError, w')
    /\ log w' = (log w ++ typed prompt lines ++ [Asked prompt None])%list.
Proof.
  induction 1 as [|a lines Ha _ IH]; intros w.
  - eexists. split; [done|]. by rewrite app_nil_l.
  - rewrite yes_no_skip_loop_step, Ha.
    destruct (IH (record (Asked prompt (Some a)) (set_stdin lines w)))
      as (w' & -> & Hl).
    exists w'. split; [done|]. rewrite Hl. cbn. by rewrite <-app_assoc.
Qed.

Lemma yes_no_loop_eof prompt lines :
  Forall (fun a => yes_no_reply a = None) lines ->
  forall w, exists w',
    yes_no_loop prompt lines w = (Raises EOFError, w')
    /\ log w' = (log w ++ typed prompt lines ++ [Asked prompt None])%list.
Proof.
  induction 1 as [|a lines Ha _ IH]; intros w.
  - eexists. split; [done|]. by rewrite app_nil_l.
  - rewrite yes_no_loop_step, Ha.
    destruct (IH (record (Asked prompt (Some a)) (set_stdin lines w)))
      as (w' & -> & Hl).
    exists w'. split; [done|]. rewrite Hl. cbn. by rewrite <-app_assoc.
Qed.

(** X7.  When the input ends before an answer is given, both questions
    raise [EOFError], after having asked once for each line and once more
    at the end of the input. *)
Theorem questions_end_of_input message w :
  Forall (fun a => skip_reply a = None) (stdin w) ->
  (exists w',
     yes_no_skip_question message w = (Raises EOFError, w')
     /\ log w'
        = (log w
           ++ typed (message +:+ " [(Y)es/(n)o/(s)kip this form]: ") (stdin w)
           ++ [Asked (message +:+ " [(Y)es/(n)o/(s)kip this form]: ") None])%list)
  /\ (exists w',
        yes_no_question message w = (Raises EOFError, w')
        /\ log w'
           = (log w ++ typed (message +:+ " [Y/n]: ") (stdin w)
              ++ [Asked (message +:+ " [Y/n]: ") None])%list).
Proof.
  intros Hall. split.
  - by apply yes_no_skip_loop_eof.
  - apply yes_no_loop_eof. eapply Forall_impl; [exact Hall|].
    apply skip_reply_none_yes_no.
Qed.

(** ** The menu of senses *)

Lemma chosen_elem senses choice s :
  chosen senses choice = Some s -> s ∈ senses.
Proof.
  unfold chosen. case_match; [|done]. by apply list_elem_of_lookup_2.
Qed.

Lemma choose_sense_loop_step senses answer rest w :
  choose_sense_loop senses (answer :: rest) w
  = let w' := record (Asked (choose_options senses) (Some answer))
                (set_stdin rest w) in
    match Str.python_int answer with
    | None =>
        choose_sense_loop senses rest
          (record (Printed "Sorry, I didn't understand that.") w')
    | Some choice =>
        match chosen senses choice with
        | Some s => (Returns (Some s), w')
        | None =>
            (Returns None, record (Printed "Cancelled adding this sentence.") w')
        end
    end.
Proof.
  simpl. destruct (Str.python_int answer) as [choice|]; [|done].
  unfold chosen.
  destruct ((0 <? choice)%Z && (choice <=? Z.of_nat (length senses))%Z)
    eqn:Hrange; [|done].
  destruct (senses !! (Z.to_nat choice - 1)) eqn:Hl; [done|].
  apply lookup_ge_None in Hl. apply andb_true_iff in Hrange as [H1 H2].
  apply Z.ltb_lt in H1. apply Z.leb_le in H2. lia.
Qed.

Lemma choose_sense_loop_found senses junk answer choice rest :
  Forall (fun a => Str.python_int a = None) junk ->
  Str.python_int answer = Some choice ->
  forall w, exists w',
    choose_sense_loop senses (junk ++ answer :: rest)%list w
    = (Returns (chosen senses choice), w')
    /\ stdin w' = rest
    /\ asked (log w')
       = (asked (log w)
          ++ replicate (S (length junk)) (choose_options senses))%list
    /\ disk w' = disk w.
Proof.
  intros Hjunk Hans.
  induction Hjunk as [|a junk Ha _ IH]; intros w; cbn [app].
  - rewrite choose_sense_loop_step, Hans. cbn zeta.
    destruct (chosen senses choice); eexists; (split; [done|]);
      (split; [done|]); simpl; rewrite ?asked_snoc by done;
      (split; [|done]); unfold asked; rewrite omap_app; done.
  - rewrite choose_sense_loop_step, Ha. cbn zeta.
    edestruct IH as (w' & -> & Hs & Ha' & Hd).
    exists w'. split; [done|]. split; [done|]. split; [|done].
    rewrite Ha'. simpl. rewrite asked_snoc by done.
    unfold asked at 1. rewrite omap_app. simpl.
    by rewrite <-app_assoc.
Qed.

Lemma prompt_choose_sense_found senses junk answer choice rest w :
  Forall (fun a => Str.python_int a = None) junk ->
  Str.python_int answer = Some choice ->
  stdin w = (junk ++ answer :: rest)%list ->
  exists w',
    prompt_choose_sense senses w = (Returns (chosen senses choice), w')
    /\ stdin w' = rest.
Proof.
  intros Hjunk Hans Hin. unfold prompt_choose_sense. rewrite Hin.
  destruct (choose_sense_loop_found senses junk answer choice rest
              Hjunk Hans w) as (w' & Hrun & Hs & _).
  by exists w'.
Qed.



(** Printing a number and reading it back. *)

Lemma digit_not_space c : Str.is_digit c = true -> Str.is_int_space c = false.
Proof.
  unfold Str.is_digit, Str.is_int_space. cbn zeta.
  generalize (nat_of_ascii c). intros n H.
  apply andb_true_iff in H as [H1 H2].
  apply Nat.leb_le in H1. apply Nat.leb_le in H2.
  repeat (apply orb_false_iff; split);
    try (apply andb_false_iff);
    rewrite ?Nat.leb_gt, ?Nat.eqb_neq; lia.
Qed.

Lemma rstrip_digits s : all_digits s = true -> Str.int_rstrip s = s.
Proof.
  induction s as [|c s IH]; simpl; [done|].
  intros [Hc Hs]%andb_true_iff. rewrite (IH Hs).
  destruct s; [|done]. by rewrite (digit_not_space c Hc).
Qed.

Lemma strip_digits s : all_digits s = true -> Str.int_strip s = s.
Proof.
  intros H. unfold Str.int_strip.
  assert (Str.int_lstrip s = s) as ->; [|by apply rstrip_digits].
  destruct s as [|c s]; simpl in *; [done|].
  apply andb_true_iff in H as [Hc _]. by rewrite (digit_not_space c Hc).
Qed.

Lemma python_int_digits s :
  all_digits s = true -> Str.python_int s = Str.digits_value 0 false s.
Proof.
  intros H. unfold Str.python_int. rewrite (strip_digits s H).
  destruct s as [|c s]; [done|].
  simpl in H. apply andb_true_iff in H as [Hc _].
  destruct c as [[] [] [] [] [] [] [] []]; try discriminate Hc; reflexivity.
Qed.

Lemma pretty_N_char_digit d :
  (d < 10)%N ->
  Str.is_digit (pretty_N_char d) = true
  /\ Z.of_nat (nat_of_ascii (pretty_N_char d) - 48) = Z.of_N d.
Proof.
  intros H. rewrite <-(N2Nat.id d).
  assert (N.to_nat d < 10)%nat as Hk by lia. revert Hk.
  generalize (N.to_nat d). intros k Hk.
  do 10 (destruct k as [|k]; [by split|]). lia.
Qed.

Lemma pretty_N_go_digits x s :
  all_digits s = true -> all_digits (pretty_N_go x s) = true.
Proof.
  revert s. induction (N.lt_wf_0 x) as [x _ IH]; intros s Hs.
  destruct (decide (x = 0)%N) as [->|Hx]; [by rewrite pretty_N_go_0|].
  rewrite pretty_N_go_step by lia.
  apply IH; [apply N.div_lt; lia|]. simpl.
  destruct (pretty_N_char_digit (x `mod` 10)) as [-> _]; [|done].
  apply N.mod_lt. lia.
Qed.

Lemma digits_value_pretty x :
  (0 < x)%N ->
  forall s, exists k : Z,
    (0 <= k)%Z /\
    forall acc after,
      Str.digits_value acc after (pretty_N_go x s)
      = Str.digits_value (acc * 10 ^ k + Z.of_N x) true s.
Proof.
  induction (N.lt_wf_0 x) as [x _ IH]; intros Hx s.
  rewrite pretty_N_go_step by done.
  destruct (pretty_N_char_digit (x `mod` 10)) as [Hd Hv];
    [apply N.mod_lt; lia|].
  pose proof (N.div_mod x 10 ltac:(lia)) as Hdm.
  destruct (decide (x `div` 10 = 0)%N) as [H0|H0].
  - exists 1%Z. split; [lia|]. intros acc after.
    rewrite H0, pretty_N_go_0. simpl. rewrite Hd, Hv. f_equal. lia.
  - destruct (IH (x `div` 10)%N) with (s := String (pretty_N_char (x `mod` 10)) s)
      as (k & Hk & Heq); [apply N.div_lt; lia | by apply N.neq_0_lt_0 |].
    exists (k + 1)%Z. split; [lia|]. intros acc after.
    rewrite Heq. simpl. rewrite Hd, Hv. f_equal.
    rewrite Z.pow_add_r by lia. lia.
Qed.

Lemma python_int_pretty (n : nat) :
  Str.python_int (pretty n) = Some (Z.of_nat n).
Proof.
  unfold pretty, pretty_nat, pretty, pretty_N.
  destruct (decide (N.of_nat n = 0)%N) as [H0|H0].
  - assert (n = 0%nat) as -> by lia. reflexivity.
  - rewrite python_int_digits by by apply pretty_N_go_digits.
    destruct (digits_value_pretty (N.of_nat n) ltac:(lia) EmptyString)
      as (k & _ & ->).
    simpl. f_equal. lia.
Qed.

(** X9.  Typing the number printed in front of a gloss selects the sense
    with that gloss: the numbers of the menu, as [prompt_choose_sense]
    prints them, are read back by [int] as the places of the senses. *)
Theorem menu_number_selects senses k s rest w :
  senses !! k = Some s ->
  stdin w = pretty (S k) :: rest ->
  exists w',
    prompt_choose_sense senses w = (Returns (Some s), w')
    /\ stdin w' = rest.
Proof.
  intros Hk Hin.
  destruct (prompt_choose_sense_found senses [] (pretty (S k))
              (Z.of_nat (S k)) rest w) as (w' & Hrun & Hs).
  - constructor.
  - apply python_int_pretty.
  - done.
  - exists w'. split; [|done]. rewrite Hrun. do 2 f_equal.
    unfold chosen. pose proof (lookup_lt_Some _ _ _ Hk).
    replace (Z.to_nat (Z.of_nat (S k)) - 1)%nat with k by lia.
    rewrite Hk. case_match eqn:Hr; [done|].
    apply andb_false_iff in Hr as [Hr|Hr];
      [apply Z.ltb_ge in Hr | apply Z.leb_gt in Hr]; lia.
Qed.

(** ** The sense resolver *)

Lemma choose_sense_loop_elem senses lines w s w' :
  choose_sense_loop senses lines w = (Returns (Some s), w') -> s ∈ senses.
Proof.
  revert w. induction lines as [|a lines IH]; intros w; [done|].
  rewrite choose_sense_loop_step. cbn zeta.
  destruct (Str.python_int a) as [choice|]; [|apply IH].
  destruct (chosen senses choice) as [s0|] eqn:Hc; [|done].
  intros [= -> _]. by eapply chosen_elem.
Qed.

(** X10.  Whatever the operator types, a sense that
    [prompt_sense_approval] returns is one of the senses that
    [fetch_senses] got for the lexeme, with its own gloss. *)
Theorem approved_sense_was_fetched sentence data w sel w' :
  prompt_sense_approval sentence data w = (Returns (Some sel), w') ->
  exists senses w1 s,
    fetch_senses (lid data) w = (Returns senses, w1)
    /\ s ∈ senses /\ sel = selection s.
Proof.
  unfold prompt_sense_approval, bind at 1.
  destruct (fetch_senses (lid data) w) as [[senses| |] w1]; [|done..].
  intros Happ. exists senses, w1.
  revert Happ. unfold approve_sense.
  destruct (0 <? length senses)%nat eqn:Hpos.
  - destruct (length senses =? 1)%nat eqn:Hone.
    + destruct (senses !! 0%nat) as [only|] eqn:Ho; [|done].
      unfold bind.
      destruct (yes_no_question _ w1) as [[[]| |] w2]; try done.
      intros [= <- _]. exists only. split; [done|]. split; [|done].
      by eapply list_elem_of_lookup_2.
    + unfold bind, print, emit, prompt_choose_sense.
      destruct (choose_sense_loop senses _ _) as [[[s|]| |] w2] eqn:Hloop;
        try done.
      intros [= <- _]. exists s. split; [done|]. split; [|done].
      by eapply choose_sense_loop_elem.
  - unfold bind.
    destruct (count_number_of_senses_with_P5137 "L35455" w1)
      as [[count| |] w2]; try done.
    destruct (0 <? count)%Z; unfold print, sleep, emit, ret; by intros [=].
Qed.

(** X11.  With exactly one sense the operator is asked whether the example
    fits its gloss: yes returns that sense; no prints the advice, waits
    five seconds and returns [False]. *)
Theorem only_sense_answer data s junk answer r rest w :
  Forall (fun a => yes_no_reply a = None) junk ->
  yes_no_reply answer = Some r ->
  stdin w = (junk ++ answer :: rest)%list ->
  exists w',
    approve_sense data [s] w
    = (Returns (if r then Some (selection s) else None), w')
    /\ stdin w' = rest
    /\ log w'
       = (log w
          ++ typed (("Found only one sense. " +:+
                     "Does this example fit the following " +:+
                     "gloss? " +:+ Str.newline +:+ "'" +:+ gloss s +:+ "'")
                    +:+ " [Y/n]: ") (junk ++ [answer])
          ++ (if r then []
              else [Printed (only_sense_advice (word data)); Slept 5]))%list.
Proof.
  intros Hjunk Hr Hin.
  destruct (yes_no_question_found
              ("Found only one sense. " +:+
               "Does this example fit the following " +:+
               "gloss? " +:+ Str.newline +:+ "'" +:+ gloss s +:+ "'")
              junk answer r rest w Hjunk Hr Hin)
    as (w1 & Hask & Hs & Hl & _).
  unfold approve_sense. simpl. unfold bind at 1. rewrite Hask.
  destruct r.
  - eexists. split; [done|]. split; [done|]. by rewrite app_nil_r.
  - eexists. split; [done|]. simpl. split; [done|].
    rewrite Hl. by rewrite <-!app_assoc.
Qed.

(** ** Queries *)

Lemma queries_snoc l e : not_queried e -> queries (l ++ [e]) = queries l.
Proof.
  intros H. unfold queries. rewrite omap_app. destruct e; simpl in *;
    try done; by rewrite app_nil_r.
Qed.

Lemma queries_yes_no_loop prompt lines w :
  queries (log (yes_no_loop prompt lines w).2) = queries (log w).
Proof.
  revert w. induction lines as [|a lines IH]; intros w.
  - simpl. by rewrite queries_snoc.
  - rewrite yes_no_loop_step.
    destruct (yes_no_reply a); [|rewrite IH]; simpl; by rewrite queries_snoc.
Qed.

Lemma queries_choose_sense_loop senses lines w :
  queries (log (choose_sense_loop senses lines w).2) = queries (log w).
Proof.
  revert w. induction lines as [|a lines IH]; intros w.
  - simpl. by rewrite queries_snoc.
  - rewrite choose_sense_loop_step. cbn zeta.
    destruct (Str.python_int a) as [choice|].
    + destruct (chosen senses choice); simpl; by rewrite !queries_snoc.
    + rewrite IH. simpl. by rewrite !queries_snoc.
Qed.

Lemma queries_sparql_query query w :
  queries (log (sparql_query query w).2) = (queries (log w) ++ [query])%list.
Proof.
  unfold sparql_query.
  assert (queries (log (record (Queried query) w))
          = (queries (log w) ++ [query])%list) as Hq.
  { simpl. unfold queries. by rewrite omap_app. }
  destruct (endpoint (log w) query) as [[|r rows]|]; simpl; try done.
  rewrite queries_snoc by done. exact Hq.
Qed.

Lemma queries_approve_sense data senses w :
  senses ≠ [] ->
  queries (log (approve_sense data senses w).2) = queries (log w).
Proof.
  intros Hne. destruct senses as [|s [|s2 rest]]; [done| |].
  - unfold approve_sense. cbn [length Nat.ltb Nat.leb Nat.eqb lookup list_lookup].
    unfold bind, yes_no_question.
    pose proof (queries_yes_no_loop
                  (("Found only one sense. " +:+
                    "Does this example fit the following " +:+
                    "gloss? " +:+ Str.newline +:+ "'" +:+ gloss s +:+ "'")
                   +:+ " [Y/n]: ") (stdin w) w) as Hq.
    destruct (yes_no_loop _ (stdin w) w) as [[[]| |] w1]; simpl in *;
      rewrite ?queries_snoc by done; done.
  - unfold approve_sense. cbn [length Nat.ltb Nat.leb Nat.eqb].
    unfold bind, print, emit, prompt_choose_sense.
    pose proof (queries_choose_sense_loop (s :: s2 :: rest)
                  (stdin (record (Printed ("Found " +:+
                     pretty (S (S (length rest))) +:+ " senses.")) w))
                  (record (Printed ("Found " +:+
                     pretty (S (S (length rest))) +:+ " senses.")) w)) as Hq.
    destruct (choose_sense_loop _ _ _) as [[[]| |] w1]; simpl in *;
      rewrite Hq, queries_snoc; done.
Qed.

(** X12.  [prompt_sense_approval] sends exactly one query, the query for
    the senses of the lexeme, however it ends: the query that counts the
    senses with P5137 is never sent, because [fetch_senses] does not return
    when there is no sense. *)
Theorem resolver_sends_one_query sentence data w :
  queries (log (prompt_sense_approval sentence data w).2)
  = (queries (log w) ++ [senses_query (lid data)])%list.
Proof.
  unfold prompt_sense_approval, bind at 1.
  pose proof (fetch_senses_nonempty (lid data) w) as Hne.
  assert (queries (log (fetch_senses (lid data) w).2)
          = (queries (log w) ++ [senses_query (lid data)])%list) as Hq.
  { unfold fetch_senses, bind.
    pose proof (queries_sparql_query (senses_query (lid data)) w) as Hs.
    by destruct (sparql_query _ w) as [[rows| |] w1]. }
  destruct (fetch_senses (lid data) w) as [[senses| |] w1]; simpl in *;
    [|done..].
  rewrite queries_approve_sense; [done|]. by eapply Hne.
Qed.

(** X13.  [sparql_query] never returns an empty result: what it returns
    is the non-empty list of bindings the endpoint answered, after sending
    the query once. *)
Theorem sparql_query_never_empty query w rows w' :
  sparql_query query w = (Returns rows, w') ->
  rows ≠ [] /\ endpoint (log w) query = Answer rows
  /\ log w' = (log w ++ [Queried query])%list.
Proof.
  unfold sparql_query.
  destruct (endpoint (log w) query) as [[|r rows0]|e0]; simpl; [done| |done].
  by intros [= <- <-].
Qed.

(** ** Rows *)

Lemma prefix_app old s : String.prefix old (old +:+ s) = true.
Proof.
  induction old as [|c old IH]; simpl; [by destruct s|].
  destruct (ascii_dec c c); [done | congruence].
Qed.

Lemma replace_from_skip old new t s :
  Str.replace_from old new (t +:+ s) (String.length t)
  = Str.replace_from old new s 0.
Proof. induction t as [|c t IH]; simpl; [by destruct s | done]. Qed.

Lemma replace_from_free old new s :
  occurs old s = false -> Str.replace_from old new s 0 = s.
Proof.
  induction s as [|c s IH]; [done|].
  cbn [occurs]. intros [Hp Ho]%orb_false_iff.
  cbn [Str.replace_from]. rewrite Hp. by rewrite IH.
Qed.

(** [replace] takes a leading [old] away and keeps a rest in which [old]
    does not occur. *)
Lemma replace_prefixed old new s :
  old ≠ EmptyString -> occurs old s = false ->
  Str.replace old new (old +:+ s) = new +:+ s.
Proof.
  intros Hne Hfree. unfold Str.replace.
  destruct old as [|c t]; [done|].
  change (String c t +:+ s) with (String c (t +:+ s)).
  cbn [Str.replace_from].
  change (String c (t +:+ s)) with (String c t +:+ s).
  rewrite prefix_app. cbn [String.length]. rewrite Nat.sub_1_r. cbn [pred].
  by rewrite replace_from_skip, replace_from_free.
Qed.

(** X14.  [extract_data] undoes the entity prefix: for a row whose [l] and
    [form] values are the prefix followed by identifiers in which the
    prefix does not occur, it gives back these identifiers, the word as it
    is, the word between spaces and between angle brackets, and the
    category. *)
Theorem extract_data_of_row l f wd cat :
  occurs wd_prefix l = false ->
  occurs wd_prefix f = false ->
  extract_data (form_row l f wd cat)
  = Returns {| lid := l; form_id := f; word := wd;
               word_spaces := " " +:+ wd +:+ " ";
               word_angle_parens := ">" +:+ wd +:+ "<";
               category := cat |}.
Proof.
  intros Hl Hf. unfold extract_data, binding, form_row, uri, literal.
  repeat (rewrite ?lookup_insert_eq; rewrite ?lookup_insert_ne by done).
  simpl. by rewrite !replace_prefixed.
Qed.

Lemma extract_data_lacking result :
  lacks_binding result -> exists e, extract_data result = Raises e.
Proof.
  intros (var & Hin & Hnone).
  assert (binding result var = Raises (KeyError var)) as Hb.
  { unfold binding. by rewrite Hnone. }
  unfold extract_data.
  destruct (binding result "l") as [l|c|e] eqn:H1; simpl;
    [|by apply binding_no_exit in H1|by eexists].
  destruct (binding result "form") as [f|c|e] eqn:H2; simpl;
    [|by apply binding_no_exit in H2|by eexists].
  destruct (binding result "word") as [wd|c|e] eqn:H3; simpl;
    [|by apply binding_no_exit in H3|by eexists].
  destruct (binding result "catLabel") as [cat|c|e] eqn:H4; simpl;
    [|by apply binding_no_exit in H4|by eexists].
  exfalso. rewrite !elem_of_cons, elem_of_nil in Hin.
  destruct Hin as [->|[->|[->|[->|[]]]]]; congruence.
Qed.

Lemma collect_words_raises results r e :
  r ∈ results -> extract_data r = Raises e ->
  exists e', collect_words results = Raises e'.
Proof.
  intros Hin Hr. induction results as [|r0 results IH].
  - by apply elem_of_nil in Hin.
  - simpl. destruct (extract_data r0) as [d|c|e0] eqn:H0; simpl.
    + apply elem_of_cons in Hin as [->|Hin]; [congruence|].
      destruct (IH Hin) as [e' ->]. by eexists.
    + by apply extract_data_no_exit in H0.
    + by eexists.
Qed.

(** X15.  A row that lacks one of the bindings [l], [form], [word] and
    [catLabel] stops [process_lexeme_data] in its first loop: a [KeyError]
    (or the error of an earlier row) is raised before anything is printed,
    drawn or looked up. *)
Theorem row_without_binding_stops results draws w r :
  r ∈ results -> lacks_binding r ->
  exists e, process_lexeme_data results draws w = Halted (Raises e) [] w.
Proof.
  intros Hin Hlack.
  destruct (extract_data_lacking r Hlack) as [e He].
  destruct (collect_words_raises results r e Hin He) as [e' He'].
  exists e'. unfold process_lexeme_data. by rewrite He'.
Qed.

(** ** Submitting an edit *)

Lemma submissions_wrote l it summary :
  submissions (l ++ [Wrote it summary]) = (submissions l ++ [it])%list.
Proof. unfold submissions. by rewrite omap_app. Qed.

Lemma wbi_part_returns letter value v :
  wbi_part letter value = Returns v -> v = value.
Proof.
  unfold wbi_part. destruct value as [s|]; [|by intros [= <-]].
  destruct (Str.is_part_id letter s); [by intros [= <-] | done].
Qed.

(** X16.  When [add_usage_example] returns for a publication date that is
    given, the date was read as an ISO date, the library took the form and
    the sense identifier, exactly one edit was sent, as the last thing the
    call did, and the value returned is what the write API answered to
    that edit.  The edit appends to P5831 of the lexeme the sentence in the
    configured language, qualified by the form and the sense, with a
    reference that names the document, the day of the call and the
    publication day.  The edit is sent with the session that exists
    afterwards, and a session that existed before is the one that is
    kept. *)
Theorem add_usage_example_sends_one_edit
    (document_id sentence lid form_id sense_id word : option string)
    text w r w' :
  add_usage_example document_id sentence lid form_id sense_id word
    (Some text) w = (Returns r, w') ->
  exists published result session before,
    let it := usage_item document_id sentence lid form_id sense_id
                published (utc_today (log w)) in
    let summary := "Added usage example with [[Wikidata:LexUse]]" in
    fromisoformat text = Some published
    /\ wbi_form form_id = Returns form_id
    /\ wbi_sense sense_id = Returns sense_id
    /\ log w' = (before ++ [Wrote it summary])%list
    /\ login_instance w' = Some session
    /\ wbi_write before session it summary = Answer result
    /\ r = PText result
    /\ submissions (log w') = (submissions (log w) ++ [it])%list
    /\ (is_Some (login_instance w) -> login_instance w' = login_instance w)
    /\ disk w' = disk w.
Proof.
  unfold add_usage_example.
  destruct (fromisoformat text) as [published|]; [|done].
  unfold bind at 1, lift.
  destruct (wbi_form form_id) as [f| |] eqn:Hf; [|done..].
  apply wbi_part_returns in Hf as ->.
  unfold bind at 1.
  destruct (wbi_sense sense_id) as [s| |] eqn:Hs; [|done..].
  apply wbi_part_returns in Hs as ->.
  unfold bind, when, print, emit, ret.
  destruct debug_json; simpl.
  - destruct (login_instance w) as [session|] eqn:Hlog; simpl.
    + destruct (wbi_write _ _ _ _) as [result|] eqn:Hw; [|done].
      intros [= <- <-]. exists published, result, session. eexists.
      cbv zeta. split; [done|]. split; [done|]. split; [done|]. simpl.
      split; [reflexivity|]. split; [done|]. split; [exact Hw|].
      split; [done|].
      rewrite submissions_wrote, submissions_snoc; [|done].
      by rewrite Hlog.
    + destruct (wbi_login _ _ _) as [session|]; [|done]. simpl.
      destruct (wbi_write _ _ _ _) as [result|] eqn:Hw; [|done].
      intros [= <- <-]. exists published, result, session. eexists.
      cbv zeta. split; [done|]. split; [done|]. split; [done|]. simpl.
      split; [reflexivity|]. split; [done|]. split; [exact Hw|].
      split; [done|].
      rewrite submissions_wrote, !submissions_snoc; [|done..].
      split; [done|]. split; [by intros [? [=]] | done].
  - destruct (login_instance w) as [session|] eqn:Hlog; simpl.
    + destruct (wbi_write _ _ _ _) as [result|] eqn:Hw; [|done].
      intros [= <- <-]. exists published, result, session. eexists.
      cbv zeta. split; [done|]. split; [done|]. split; [done|]. simpl.
      split; [reflexivity|]. split; [done|]. split; [exact Hw|].
      split; [done|]. rewrite submissions_wrote. by rewrite Hlog.
    + destruct (wbi_login _ _ _) as [session|]; [|done]. simpl.
      destruct (wbi_write _ _ _ _) as [result|] eqn:Hw; [|done].
      intros [= <- <-]. exists published, result, session. eexists.
      cbv zeta. split; [done|]. split; [done|]. split; [done|]. simpl.
      split; [reflexivity|]. split; [done|]. split; [exact Hw|].
      split; [done|].
      rewrite submissions_wrote, !submissions_snoc; [|done..].
      split; [done|]. split; [by intros [? [=]] | done].
Qed.

(** X17.  However [add_usage_example] ends, it sends at most one edit, and
    none unless the publication date is given and is read as an ISO date,
    the library takes the form and the sense identifier, and there is a
    session at the end.  In particular, when nobody is logged in and the
    login is refused, the list of edits is what it was and there is still
    no session. *)
Theorem add_usage_example_at_most_one_edit
    (document_id sentence lid form_id sense_id word date : option string) w :
  let w' := (add_usage_example document_id sentence lid form_id sense_id
               word date w).2 in
  (submissions (log w') = submissions (log w)
   \/ exists it text published session,
        date = Some text /\ fromisoformat text = Some published
        /\ wbi_form form_id = Returns form_id
        /\ wbi_sense sense_id = Returns sense_id
        /\ login_instance w' = Some session
        /\ submissions (log w') = (submissions (log w) ++ [it])%list)
  /\ (login_instance w = None ->
      (forall l, exists e, wbi_login l username password = Failure e) ->
      submissions (log w') = submissions (log w)
      /\ login_instance w' = None).
Proof.
  cbv zeta. unfold add_usage_example.
  destruct date as [text|].
  2: { simpl. rewrite submissions_snoc by done.
       split; [by left | by intros Hl _]. }
  destruct (fromisoformat text) as [published|] eqn:Hp.
  2: { split; [by left | by intros Hl _]. }
  unfold bind at 1, lift.
  destruct (wbi_form form_id) as [f| |] eqn:Hf.
  2,3: split; [by left | by intros Hl _].
  apply wbi_part_returns in Hf as Hf'. subst f.
  unfold bind at 1.
  destruct (wbi_sense sense_id) as [s| |] eqn:Hs.
  2,3: split; [by left | by intros Hl _].
  apply wbi_part_returns in Hs as Hs'. subst s.
  unfold bind, when, print, emit, ret.
  destruct (login_instance w) as [session|] eqn:Hlog.
  - split; [|done]. destruct debug_json; simpl; rewrite Hlog; simpl;
      destruct (wbi_write _ _ _ _) as [result|]; simpl;
      right; eexists _, text, published, session;
      (split; [done|]); (split; [done|]); (split; [done|]);
      (split; [done|]); (split; [done|]);
      rewrite submissions_wrote, ?submissions_snoc; done.
  - split.
    + destruct debug_json; simpl; rewrite Hlog; simpl;
        (destruct (wbi_login _ _ _) as [session|]; simpl;
         [|left; rewrite ?submissions_snoc; done]);
        destruct (wbi_write _ _ _ _) as [result|]; simpl;
        right; eexists _, text, published, session;
        (split; [done|]); (split; [done|]); (split; [done|]);
        (split; [done|]); (split; [done|]);
        rewrite submissions_wrote, ?submissions_snoc; done.
    + intros _ Hfail.
      destruct debug_json; simpl; rewrite Hlog; simpl;
        edestruct Hfail as [e ->]; simpl;
        rewrite ?submissions_snoc; done.
Qed.

(** ** Ending the presentation of a form *)

(** X18.  When the operator answers the first sentence with skip, the loop
    of [process_result] saves the form and returns: one question was
    asked, no other sentence is presented, only that answer is used up and
    the backing file is untouched until the save. *)
Theorem skip_saves_the_form data mapping sentence others answer rest w :
  sorted_sentences mapping = sentence :: others ->
  skip_reply answer = Some None ->
  stdin w = answer :: rest ->
  exists w1,
    curate data mapping w = save_to_exclude_list (Some data) w1
    /\ stdin w1 = rest
    /\ asked (log w1) = (asked (log w) ++ [skip_prompt data sentence])%list
    /\ disk w1 = disk w.
Proof.
  intros Hsorted Hskip Hin.
  assert (sentence ∈ mapping.*1) as Hs.
  { pose proof (py_sorted_perm String.length (mapping.*1)) as Hp.
    fold (sorted_sentences mapping) in Hp. rewrite <-Hp, Hsorted. by left. }
  unfold curate. cbv zeta. rewrite Hsorted.
  generalize (length (sentence :: others)). intros total.
  destruct (announce_log mapping total 1 sentence w Hs)
    as (rd & w0 & Hann & Hs0 & Ha0).
  pose proof (disk_announce mapping total 1 sentence w) as Hd0.
  rewrite Hann in Hd0. simpl in Hd0.
  destruct (yes_no_skip_question_found (suitable_prompt data sentence)
              [] answer None rest w0) as (w1 & Hask & Hs1 & Hl1 & Hd1 & _);
    [constructor | done | by rewrite Hs0 |].
  exists w1. split; [|split; [done|split]].
  - simpl. unfold bind at 1, present_next, bind at 1. rewrite Hann.
    unfold present_sentence, bind at 1. by rewrite Hask.
  - rewrite Hl1. unfold asked at 1. rewrite omap_app. simpl.
    fold (asked (log w0)). by rewrite Ha0.
  - congruence.
Qed.

(** X19.  When the operator accepts a sentence and no sense is approved
    for it, [present_sentence] ends without a [return], which is [None]:
    the loop of [process_result] takes this for a skip, saves the form and
    presents no other sentence. *)
Theorem unapproved_sense_saves_the_form data mapping total count sentence
    rest w rd w0 w1 w2 :
  announce mapping total count sentence w = (Returns rd, w0) ->
  yes_no_skip_question (suitable_prompt data sentence) w0
    = (Returns (Some true), w1) ->
  prompt_sense_approval sentence data w1 = (Returns None, w2) ->
  present_sentence data sentence (document_id rd) (date rd) w0
    = (Returns None, w2)
  /\ present_all data mapping total count (sentence :: rest) w
     = save_to_exclude_list (Some data) w2
  /\ disk w2 = disk w.
Proof.
  intros Hann Hask Hsense.
  assert (present_sentence data sentence (document_id rd) (date rd) w0
          = (Returns None, w2)) as Hp.
  { unfold present_sentence, bind. by rewrite Hask, Hsense. }
  split; [done|]. split.
  - simpl. unfold bind at 1, present_next, bind at 1. by rewrite Hann, Hp.
  - pose proof (disk_announce mapping total count sentence w) as H0.
    pose proof (disk_present_sentence data sentence (document_id rd)
                  (date rd) w0) as H1.
    rewrite Hann in H0. rewrite Hp in H1. simpl in *. congruence.
Qed.

(** ** The sampling loop, continued *)

Lemma snoc_fresh (earlier results : list row) result :
  NoDup earlier -> earlier ⊆ results -> result ∈ results ->
  result ∉ earlier ->
  NoDup (earlier ++ [result])%list /\ (earlier ++ [result])%list ⊆ results.
Proof.
  intros Hnd Hsub Hres Hfresh. split.
  - apply NoDup_app. split; [done|]. split; [|apply NoDup_singleton].
    intros x Hx Hx'. apply list_elem_of_singleton in Hx'. by subst.
  - intros x Hx. apply elem_of_app in Hx as [Hx|Hx]; [by apply Hsub|].
    apply list_elem_of_singleton in Hx. by subst.
Qed.

Lemma sampling_loop_no_repeat results draws earlier w :
  NoDup earlier -> earlier ⊆ results ->
  NoDup (visited (sampling_loop results draws earlier w))
  /\ visited (sampling_loop results draws earlier w) ⊆ results
  /\ length (visited (sampling_loop results draws earlier w))
     <= length earlier + length draws.
Proof.
  revert earlier w. induction draws as [|d draws IH]; intros earlier w Hnd Hsub;
    simpl.
  - case_match; simpl; (split; [done|]); (split; [done|]); lia.
  - case_match; simpl; [split; [done|]; split; [done|]; lia|].
    destruct (choice results d) as [result| |] eqn:Hch; simpl;
      [|split; [done|]; split; [done|]; lia..].
    case_bool_decide as Hin.
    { destruct (IH earlier w Hnd Hsub) as (? & ? & ?).
      split; [done|]. split; [done|]. lia. }
    destruct (snoc_fresh earlier results result Hnd Hsub
                (choice_elem _ _ _ Hch) Hin) as [Hnd' Hsub'].
    destruct (visit result w) as [[[]| |] w']; simpl.
    + destruct (IH (earlier ++ [result])%list w' Hnd' Hsub') as (? & ? & Hlen).
      split; [done|]. split; [done|].
      rewrite length_app in Hlen. simpl in Hlen. lia.
    + split; [done|]. split; [done|]. rewrite length_app. simpl. lia.
    + split; [done|]. split; [done|]. rewrite length_app. simpl. lia.
Qed.

(** X20.  However a run of [process_lexeme_data] goes, no row is visited
    twice: the rows visited are pairwise different rows of the result, and
    there are at most as many of them as random draws were made. *)
Theorem sampler_never_repeats results draws w :
  NoDup (visited (process_lexeme_data results draws w))
  /\ visited (process_lexeme_data results draws w) ⊆ results
  /\ length (visited (process_lexeme_data results draws w)) <= length draws.
Proof.
  unfold process_lexeme_data.
  destruct (collect_words results); simpl;
    [|split; [apply NoDup_nil_2|]; split; [apply list_subseteq_nil|]; lia..].
  apply (sampling_loop_no_repeat results draws []); [apply NoDup_nil_2|].
  intros x Hx. by apply elem_of_nil in Hx.
Qed.

Lemma sampling_completed_size results draws earlier w :
  completed (sampling_loop results draws earlier w) ->
  Z.of_nat (length (visited (sampling_loop results draws earlier w)))
  = sparql_results_size.
Proof.
  revert earlier w. induction draws as [|d draws IH]; intros earlier w; simpl.
  - destruct (Z.eqb_spec (Z.of_nat (length earlier)) sparql_results_size);
      [done | by intros []].
  - destruct (Z.eqb_spec (Z.of_nat (length earlier)) sparql_results_size);
      [done|].
    destruct (choice results d) as [result|code|e] eqn:Hch;
      [|by apply choice_no_exit in Hch|by intros []].
    case_bool_decide; [apply IH|].
    destruct (visit result w) as [[[]|code|e] w'] eqn:Hv; simpl.
    + apply IH.
    + apply visit_exit_code in Hv. subst. by intros [].
    + by intros [].
Qed.

(** X21.  The completion message and [exit(0)] come exactly when the
    number of rows visited is [config.sparql_results_size]: a run that
    completes has visited that many different rows of the result, so the
    result has at least that many rows. *)
Theorem completion_counts_configured_size results draws w :
  completed (process_lexeme_data results draws w) ->
  Z.of_nat (length (visited (process_lexeme_data results draws w)))
  = sparql_results_size
  /\ (sparql_results_size <= Z.of_nat (length results))%Z.
Proof.
  unfold process_lexeme_data.
  destruct (collect_words results) as [words|code|e] eqn:Hw;
    [|by apply collect_words_no_exit in Hw|by intros []].
  intros Hc. pose proof (sampling_completed_size _ _ _ _ Hc) as Hsize.
  split; [done|]. rewrite <-Hsize.
  destruct (sampling_loop_no_repeat results draws []
              (record (Printed "Going through the list of forms at random.")
                 (record (Printed ("Got " +:+ pretty (length words) +:+
                                   " suitable forms from Wikidata")) w)))
    as (Hnd & Hsub & _); [apply NoDup_nil_2 | apply list_subseteq_nil |].
  pose proof (submseteq_length _ _ (NoDup_submseteq _ _ Hnd Hsub)). lia.
Qed.

Lemma save_keeps_key data w k :
  has_key (disk w) k ->
  has_key (disk (save_to_exclude_list (Some data) w).2) k.
Proof.
  intros (m & Hd & Hk). rewrite (save_dict _ _ _ Hd). simpl.
  eexists. split; [done|]. apply lookup_insert_is_Some'. by right.
Qed.

Lemma visit_keeps_store result w :
  store_ok (disk w) ->
  store_ok (disk (visit result w).2)
  /\ forall k, has_key (disk w) k -> has_key (disk (visit result w).2) k.
Proof.
  intros Hok. destruct (extract_data result) as [d| |] eqn:Hres.
  - unfold visit, bind at 1, lift. rewrite Hres. unfold bind.
    destruct (in_exclude_list_ok d w Hok) as [b ->].
    destruct b; [done|].
    rewrite (process_result_unfold _ _ _ _ Hres). split.
    + edestruct (save_ok d) as (w' & -> & Hok' & _); [|done]. exact Hok.
    + intros k Hk. by apply save_keeps_key.
  - unfold visit, bind, lift. by rewrite Hres.
  - unfold visit, bind, lift. by rewrite Hres.
Qed.

Lemma sampling_keeps_store results draws earlier w :
  store_ok (disk w) ->
  store_ok (disk (world_of (sampling_loop results draws earlier w)))
  /\ forall k, has_key (disk w) k ->
       has_key (disk (world_of (sampling_loop results draws earlier w))) k.
Proof.
  revert earlier w. induction draws as [|d draws IH]; intros earlier w Hok;
    simpl.
  - by case_match.
  - case_match; [done|].
    destruct (choice results d) as [result| |]; [|done..].
    case_bool_decide; [by apply IH|].
    destruct (visit_keeps_store result w Hok) as [Hok' Hk].
    destruct (visit result w) as [[[]| |] w']; simpl in *; [|done..].
    destruct (IH (earlier ++ [result])%list w' Hok') as [Hok'' Hk'].
    split; [done|]. intros k Hkey. by apply Hk', Hk.
Qed.

(** X22.  A run of [process_lexeme_data] on a readable exclusion store
    removes nothing from it: the store is readable at the end, and every
    key it had at the start is still a key. *)
Theorem sampler_keeps_records results draws w k :
  store_ok (disk w) ->
  has_key (disk w) k ->
  store_ok (disk (world_of (process_lexeme_data results draws w)))
  /\ has_key (disk (world_of (process_lexeme_data results draws w))) k.
Proof.
  intros Hok Hk. unfold process_lexeme_data.
  destruct (collect_words results); [|done..].
  edestruct sampling_keeps_store as [Hok' Hk']; [|split; [exact Hok'|]].
  - exact Hok.
  - apply Hk'. exact Hk.
Qed.

(** X23.  A row whose lexeme identifier is a key of the store with the
    configured language code is skipped without a trace: the visit returns
    and the world is exactly what it was, with no output, no search and no
    change of the file. *)
Theorem excluded_row_is_skipped result data w m v :
  extract_data result = Returns data ->
  disk w = Some (Document (JObj m)) ->
  m !! lid data = Some v ->
  getitem_lang v = Returns (JStr language_code) ->
  visit result w = (Returns tt, w).
Proof.
  intros Hres Hd Hm Hv. unfold visit, bind at 1, lift. rewrite Hres.
  unfold bind. rewrite (in_exclude_list_dict _ _ _ Hd), Hm, Hv. simpl.
  by rewrite String.eqb_refl.
Qed.


End More.

(** * The further properties on the sample data *)

Import Cases.

(** X1, for the store that lists L35455-F1 and the form L40000-F2. *)
Lemma save_keeps_other_records_witness :
  disk (with_file listed []) = Some (Document (JObj listed_map))
  /\ exists m' w',
       save_to_exclude_list (cfg:=swedish 1) (env:=services [])
         (Some bil_data) (with_file listed []) = (Returns tt, w')
       /\ disk w' = Some (Document (JObj m'))
       /\ is_Some (m' !! "L40000-F2")
       /\ m' !! "L35455-F1" = listed_map !! "L35455-F1".
Proof.
  split; [reflexivity|].
  destruct (save_keeps_other_records (cfg:=swedish 1) (env:=services [])
              bil_data (with_file listed []) listed_map eq_refl)
    as (m' & w' & Hsave & Hdisk & Hnew & Hother & _).
  exists m', w'. split; [exact Hsave|]. split; [exact Hdisk|].
  split; [eexists; exact Hnew|]. apply Hother. discriminate.
Defined.

(** X2, for a store whose key is the lexeme identifier L35455. *)
Lemma in_exclude_list_by_lexeme_id_witness :
  disk (with_file (Document (JObj by_lexeme)) [])
  = Some (Document (JObj by_lexeme))
  /\ in_exclude_list (cfg:=swedish 1) hus_data
       (with_file (Document (JObj by_lexeme)) [])
     = (Returns true, with_file (Document (JObj by_lexeme)) []).
Proof.
  split; [reflexivity|].
  apply (in_exclude_list_by_lexeme_id (cfg:=swedish 1) hus_data
           (with_file (Document (JObj by_lexeme)) []) by_lexeme eq_refl).
  exists (exclusion_record "hus" "2021-01-01T00:00:00" "sv").
  split; [apply lookup_insert_eq | reflexivity].
Defined.

(** X3, for a backing file that is not JSON. *)
Lemma failed_save_empties_file_witness :
  disk (with_file Malformed []) = Some Malformed
  /\ exists e,
       save_to_exclude_list (cfg:=swedish 1) (env:=services [])
         (Some hus_data) (with_file Malformed [])
       = (Raises e, with_file Empty []).
Proof.
  split; [reflexivity|].
  destruct (failed_save_empties_file (cfg:=swedish 1) (env:=services [])
              hus_data (with_file Malformed []) Malformed eq_refl
              (or_introl eq_refl)) as (e & Hsave & _).
  exists e. exact Hsave.
Defined.

(** X5: two lines that are no answers, then a skip. *)
Lemma yes_no_skip_question_answer_witness :
  Forall (fun a => skip_reply a = None) ["maybe"; "x"]
  /\ skip_reply "S" = Some None
  /\ exists w',
       yes_no_skip_question "Continue?" (fresh ["maybe"; "x"; "S"; "y"])
       = (Returns None, w')
       /\ stdin w' = ["y"].
Proof.
  assert (Forall (fun a => skip_reply a = None) ["maybe"; "x"]) as Hjunk
    by (repeat constructor).
  split; [exact Hjunk|]. split; [reflexivity|].
  destruct (yes_no_skip_question_answer "Continue?" ["maybe"; "x"] "S" None
              ["y"] (fresh ["maybe"; "x"; "S"; "y"]) Hjunk eq_refl eq_refl)
    as (w' & Hrun & Hin & _).
  exists w'. split; [exact Hrun | exact Hin].
Defined.

(** X6: a line starting with s is no answer; the empty line is yes. *)
Lemma yes_no_question_answer_witness :
  Forall (fun a => yes_no_reply a = None) ["skip"]
  /\ yes_no_reply EmptyString = Some true
  /\ exists w',
       yes_no_question "Continue?" (fresh ["skip"; EmptyString; "n"])
       = (Returns true, w')
       /\ stdin w' = ["n"].
Proof.
  assert (Forall (fun a => yes_no_reply a = None) ["skip"]) as Hjunk
    by (repeat constructor).
  split; [exact Hjunk|]. split; [reflexivity|].
  destruct (yes_no_question_answer "Continue?" ["skip"] EmptyString true
              ["n"] (fresh ["skip"; EmptyString; "n"]) Hjunk eq_refl eq_refl)
    as (w' & Hrun & Hin & _).
  exists w'. split; [exact Hrun | exact Hin].
Defined.

(** X7: the input ends after a line that is no answer. *)
Lemma questions_end_of_input_witness :
  Forall (fun a => skip_reply a = None) (stdin (fresh ["maybe"]))
  /\ (exists w', yes_no_skip_question "Continue?" (fresh ["maybe"])
                 = (Raises EOFError, w'))
  /\ (exists w', yes_no_question "Continue?" (fresh ["maybe"])
                 = (Raises EOFError, w')).
Proof.
  assert (Forall (fun a => skip_reply a = None) (stdin (fresh ["maybe"])))
    as Hall by (repeat constructor).
  split; [exact Hall|].
  destruct (questions_end_of_input "Continue?" (fresh ["maybe"]) Hall)
    as [(w1 & H1 & _) (w2 & H2 & _)].
  split; [exists w1; exact H1 | exists w2; exact H2].
Defined.


(** X9: the second entry of the menu. *)
Lemma menu_number_selects_witness :
  [finance; river] !! 1%nat = Some river
  /\ exists w',
       prompt_choose_sense [finance; river] (fresh ["2"])
       = (Returns (Some river), w')
       /\ stdin w' = [].
Proof.
  split; [reflexivity|].
  exact (menu_number_selects [finance; river] 1 river [] (fresh ["2"])
           eq_refl eq_refl).
Defined.

(** X10: the operator confirms the only sense the endpoint knows. *)
Lemma approved_sense_was_fetched_witness :
  prompt_sense_approval (cfg:=swedish 1) (env:=services building)
    "ett hus" hus_data (fresh ["y"])
  = (Returns (Some (selection building_sense)),
     (prompt_sense_approval (cfg:=swedish 1) (env:=services building)
        "ett hus" hus_data (fresh ["y"])).2)
  /\ exists senses w1 s,
       fetch_senses (cfg:=swedish 1) (env:=services building)
         "L35455" (fresh ["y"]) = (Returns senses, w1)
       /\ s ∈ senses /\ selection building_sense = selection s.
Proof.
  assert (prompt_sense_approval (cfg:=swedish 1) (env:=services building)
            "ett hus" hus_data (fresh ["y"])
          = (Returns (Some (selection building_sense)),
             (prompt_sense_approval (cfg:=swedish 1) (env:=services building)
                "ett hus" hus_data (fresh ["y"])).2)) as Hrun
    by (vm_compute; reflexivity).
  split; [exact Hrun|].
  exact (approved_sense_was_fetched (cfg:=swedish 1) (env:=services building)
           "ett hus" hus_data (fresh ["y"]) _ _ Hrun).
Defined.

(** X11: the operator declines the only sense. *)
Lemma only_sense_answer_witness :
  yes_no_reply "n" = Some false
  /\ exists w',
       approve_sense (cfg:=swedish 1) (env:=services building)
         hus_data [building_sense] (fresh ["n"; "y"]) = (Returns None, w')
       /\ stdin w' = ["y"]
       /\ last (log w') = Some (Slept 5).
Proof.
  split; [reflexivity|].
  destruct (only_sense_answer (cfg:=swedish 1) (env:=services building)
              hus_data building_sense [] "n" false ["y"] (fresh ["n"; "y"])
              (Forall_nil_2 _) eq_refl eq_refl) as (w' & Hrun & Hin & Hlog).
  exists w'. split; [exact Hrun|]. split; [exact Hin|].
  rewrite Hlog. reflexivity.
Defined.

(** X13: an endpoint that answers with one row. *)
Lemma sparql_query_never_empty_witness :
  sparql_query (cfg:=swedish 1) (env:=services building) "SELECT" (fresh [])
  = (Returns building, record (Queried "SELECT") (fresh []))
  /\ building ≠ [].
Proof.
  assert (sparql_query (cfg:=swedish 1) (env:=services building) "SELECT"
            (fresh [])
          = (Returns building, record (Queried "SELECT") (fresh []))) as Hrun
    by reflexivity.
  split; [exact Hrun|].
  exact (proj1 (sparql_query_never_empty (cfg:=swedish 1)
                  (env:=services building) "SELECT" (fresh []) _ _ Hrun)).
Defined.

(** X14: the row of the form L35455-F1. *)
Lemma extract_data_of_row_witness :
  occurs wd_prefix "L35455" = false
  /\ occurs wd_prefix "L35455-F1" = false
  /\ extract_data (form_row "L35455" "L35455-F1" "hus" "noun")
     = Returns hus_data.
Proof.
  split; [reflexivity|]. split; [reflexivity|].
  exact (extract_data_of_row "L35455" "L35455-F1" "hus" "noun"
           eq_refl eq_refl).
Defined.

(** X15: a result whose second row has the binding [l] only. *)
Lemma row_without_binding_stops_witness :
  lacks_binding broken
  /\ exists e,
       process_lexeme_data (cfg:=swedish 2) (env:=services [])
         [hus; broken] [0; 1] (fresh [])
       = Halted (Raises e) [] (fresh []).
Proof.
  assert (lacks_binding broken) as Hlack.
  { exists "form". split; [|reflexivity]. right. left. }
  split; [exact Hlack|].
  apply (row_without_binding_stops (cfg:=swedish 2) (env:=services [])
           [hus; broken] [0; 1] (fresh []) broken); [|exact Hlack].
  right. left.
Defined.

(** X16: the edit for the sample sentence, and the answer of the write API
    that is returned. *)
Lemma add_usage_example_sends_one_edit_witness :
  add_usage_example (cfg:=swedish 1) (env:=services building)
    (Some "H2") (Some "ett hus") (Some "L35455") (Some "L35455-F1")
    (Some "L35455-S1") (Some "hus") (Some "2020-01-02") (fresh [])
  = (Returns (PText "L35455"), written)
  /\ exists published session before,
       let it := usage_item (cfg:=swedish 1) (Some "H2") (Some "ett hus")
                   (Some "L35455") (Some "L35455-F1") (Some "L35455-S1")
                   published "2021-02-03" in
       let summary := "Added usage example with [[Wikidata:LexUse]]" in
       log written = (before ++ [Wrote it summary])%list
       /\ wbi_write (environment:=services building) before session it summary
          = Answer "L35455"
       /\ submissions (log written) = [it].
Proof.
  assert (add_usage_example (cfg:=swedish 1) (env:=services building)
            (Some "H2") (Some "ett hus") (Some "L35455") (Some "L35455-F1")
            (Some "L35455-S1") (Some "hus") (Some "2020-01-02") (fresh [])
          = (Returns (PText "L35455"), written)) as Hrun
    by (vm_compute; reflexivity).
  split; [exact Hrun|].
  pose proof (add_usage_example_sends_one_edit (cfg:=swedish 1)
                (env:=services building) _ _ _ _ _ _ _ _ _ _ Hrun) as H.
  cbv zeta in H.
  destruct H as (published & result & session & before & _ & _ & _ & Hlog & _
                 & Hw & Hr & Hsub & _).
  injection Hr as <-.
  exists published, session, before. cbv zeta.
  split; [exact Hlog|]. split; [exact Hw | exact Hsub].
Defined.

(** X17: nobody is logged in and the login is refused. *)
Lemma add_usage_example_at_most_one_edit_witness :
  login_instance (fresh []) = None
  /\ (forall l, exists e,
        wbi_login (environment:=locked_out building) l "operator" "secret"
        = Failure e)
  /\ submissions
       (log (add_usage_example (cfg:=swedish 1) (env:=locked_out building)
               (Some "H2") (Some "ett hus") (Some "L35455")
               (Some "L35455-F1") (Some "L35455-S1") (Some "hus")
               (Some "2020-01-02") (fresh [])).2) = [].
Proof.
  assert (forall l, exists e,
            wbi_login (environment:=locked_out building) l "operator" "secret"
            = Failure e) as Hfail by (intros l; eexists; reflexivity).
  split; [reflexivity|]. split; [exact Hfail|].
  exact (proj1 (proj2 (add_usage_example_at_most_one_edit (cfg:=swedish 1)
                         (env:=locked_out building)
                         (Some "H2") (Some "ett hus") (Some "L35455")
                         (Some "L35455-F1") (Some "L35455-S1") (Some "hus")
                         (Some "2020-01-02") (fresh []))
                  eq_refl Hfail)).
Defined.

(** X18: the operator skips at the first of the three sentences. *)
Lemma skip_saves_the_form_witness :
  sorted_sentences three_sentences = five_words :: [eight_words; two_words]
  /\ skip_reply "s" = Some None
  /\ exists w1,
       curate (cfg:=swedish 1) (env:=services [])
         hus_data three_sentences (fresh ["s"; "y"])
       = save_to_exclude_list (cfg:=swedish 1) (env:=services [])
           (Some hus_data) w1
       /\ stdin w1 = ["y"].
Proof.
  split; [reflexivity|]. split; [reflexivity|].
  destruct (skip_saves_the_form (cfg:=swedish 1) (env:=services [])
              hus_data three_sentences five_words [eight_words; two_words]
              "s" ["y"] (fresh ["s"; "y"]) eq_refl eq_refl eq_refl)
    as (w1 & Hrun & Hin & _).
  exists w1. split; [exact Hrun | exact Hin].
Defined.

(** X19: the operator accepts the sentence and declines the only sense. *)
Lemma unapproved_sense_saves_the_form_witness :
  prompt_sense_approval (cfg:=swedish 1) (env:=services building)
    "ett hus" hus_data accepted = (Returns None, declined)
  /\ present_all (cfg:=swedish 1) (env:=services building)
       hus_data one_sentence 1 1 ["ett hus"] declining
     = save_to_exclude_list (cfg:=swedish 1) (env:=services building)
         (Some hus_data) declined
  /\ disk declined = None.
Proof.
  assert (announce (cfg:=swedish 1) one_sentence 1 1 "ett hus" declining
          = (Returns (dated "H2" "2020-01-02"), announced)) as Hann
    by (vm_compute; reflexivity).
  assert (yes_no_skip_question (suitable_prompt hus_data "ett hus") announced
          = (Returns (Some true), accepted)) as Hask
    by (vm_compute; reflexivity).
  assert (prompt_sense_approval (cfg:=swedish 1) (env:=services building)
            "ett hus" hus_data accepted = (Returns None, declined)) as Hno
    by (vm_compute; reflexivity).
  split; [exact Hno|].
  exact (proj2 (unapproved_sense_saves_the_form (cfg:=swedish 1)
                  (env:=services building) hus_data one_sentence 1 1
                  "ett hus" [] declining _ _ _ _ Hann Hask Hno)).
Defined.

(** X21: two rows and a configured size of two. *)
Lemma completion_counts_configured_size_witness :
  completed (process_lexeme_data (cfg:=swedish 2) (env:=services [])
               [hus; bil] [0; 0; 1] (fresh []))
  /\ Z.of_nat (length (visited (process_lexeme_data (cfg:=swedish 2)
                                  (env:=services []) [hus; bil] [0; 0; 1]
                                  (fresh []))))
     = 2%Z.
Proof.
  assert (completed (process_lexeme_data (cfg:=swedish 2) (env:=services [])
                       [hus; bil] [0; 0; 1] (fresh []))) as Hc
    by (vm_compute; reflexivity).
  split; [exact Hc|].
  exact (proj1 (completion_counts_configured_size (cfg:=swedish 2)
                  (env:=services []) [hus; bil] [0; 0; 1] (fresh []) Hc)).
Defined.

(** X22: a run over two rows on the store that lists L35455-F1. *)
Lemma sampler_keeps_records_witness :
  store_ok (disk (with_file listed []))
  /\ has_key (disk (with_file listed [])) "L35455-F1"
  /\ has_key (disk (world_of (process_lexeme_data (cfg:=swedish 2)
                                (env:=services []) [hus; bil] [1; 0]
                                (with_file listed []))))
       "L35455-F1".
Proof.
  assert (store_ok (disk (with_file listed []))) as Hok.
  { apply map_Forall_insert_2; [by eexists | apply map_Forall_empty]. }
  assert (has_key (disk (with_file listed [])) "L35455-F1") as Hkey.
  { exists listed_map. split; [reflexivity|].
    unfold listed_map. rewrite lookup_insert_eq. by eexists. }
  split; [exact Hok|]. split; [exact Hkey|].
  exact (proj2 (sampler_keeps_records (cfg:=swedish 2) (env:=services [])
                  [hus; bil] [1; 0] (with_file listed []) "L35455-F1"
                  Hok Hkey)).
Defined.

(** X23: the row of L35455 and a store whose key is L35455. *)
Lemma excluded_row_is_skipped_witness :
  extract_data hus = Returns hus_data
  /\ visit (cfg:=swedish 1) (env:=services []) hus
       (with_file (Document (JObj by_lexeme)) [])
     = (Returns tt, with_file (Document (JObj by_lexeme)) []).
Proof.
  assert (extract_data hus = Returns hus_data) as Hrow
    by (vm_compute; reflexivity).
  split; [exact Hrow|].
  exact (excluded_row_is_skipped (cfg:=swedish 1) (env:=services []) hus
           hus_data (with_file (Document (JObj by_lexeme)) []) by_lexeme
           (exclusion_record "hus" "2021-01-01T00:00:00" "sv")
           Hrow eq_refl (lookup_insert_eq _ _ _) eq_refl).
Defined.

(** * The orchestrator as the sampler runs it *)

Section Orchestrator.
Context {cfg : config} {env : environment}.

Lemma stdin_save data w : stdin (save_to_exclude_list data w).2 = stdin w.
Proof.
  unfold save_to_exclude_list. destruct data as [data|]; [|done].
  destruct (disk w) as [t|]; [|done].
  destruct (nonempty t); [|done]. simpl.
  destruct (json_loads t) as [v| |]; [by destruct v | done..].
Qed.

Lemma log_save data w :
  log w `prefix_of` log (save_to_exclude_list data w).2.
Proof.
  unfold save_to_exclude_list. destruct data as [data|];
    [|by apply prefix_app_r].
  destruct (disk w) as [t|]; [|done].
  destruct (nonempty t); [|by apply prefix_app_r]. simpl.
  destruct (json_loads t) as [v| |]; [by destruct v | done..].
Qed.

(** ** Candidate sentences *)

(** C5.  The candidates the corpus search finds are not presented at all,
    in no order: [get_sentences_from_apis] calls the search and drops what
    it finds, so [process_result] asks the operator nothing and reads no
    line of the input, whatever the batch is. *)
Theorem corpus_batch_is_not_presented result data (mapping : batch) w :
  extract_data result = Returns data ->
  get_records (log (searching data w)) data = mapping ->
  mapping ≠ [] ->
  let w' := (process_result result data w).2 in
  Searched data ∈ log w'
  /\ asked (log w') = asked (log w)
  /\ stdin w' = stdin w
  /\ (forall sentence,
        sentence ∈ mapping.*1 ->
        skip_prompt data sentence ∉ asked (log w) ->
        skip_prompt data sentence ∉ asked (log w')).
Proof.
  intros Hres _ _. cbv zeta.
  assert (asked (log (process_result result data w).2) = asked (log w))
    as Hasked.
  { apply (preserves_process_result _ _ blind_asked is_print_not_asked).
    done. }
  split; [|split; [done|split]].
  - rewrite (process_result_unfold _ _ _ _ Hres).
    destruct (log_save (Some data)
                (record (Printed ("Added to excludelist because of no " +:+
                                  "suitable sentences were found"))
                   (record (Searched data) (searching data w))))
      as [k Hk].
    unfold searching in Hk. rewrite Hk. simpl.
    rewrite !elem_of_app. left. left. right. by left.
  - rewrite (process_result_unfold _ _ _ _ Hres). by rewrite stdin_save.
  - intros sentence _. by rewrite Hasked.
Qed.



(** ** The end of the sampling *)

Lemma choice_returns results d :
  results ≠ [] -> exists result, choice results d = Returns result.
Proof.
  intros Hne. unfold choice.
  destruct (lookup_lt_is_Some_2 results (d mod length results)) as [r ->];
    [|by eexists].
  apply Nat.mod_upper_bound. by destruct results.
Qed.

(** With fewer rows than the configured size the loop is still drawing
    after any number of draws. *)
Lemma sampling_loop_goes_on results draws earlier w :
  results ≠ [] ->
  Forall (fun r => exists d, extract_data r = Returns d) results ->
  (Z.of_nat (length results) < sparql_results_size)%Z ->
  NoDup earlier -> earlier ⊆ results -> store_ok (disk w) ->
  exists earlier' w',
    sampling_loop results draws earlier w = Drawing earlier' w'
    /\ earlier' ⊆ results.
Proof.
  intros Hne Hwf Hfew. revert earlier w.
  induction draws as [|d draws IH]; intros earlier w Hnd Hsub Hok;
    pose proof (submseteq_length _ _ (NoDup_submseteq _ _ Hnd Hsub)) as Hlen;
    simpl;
    (destruct (Z.eqb_spec (Z.of_nat (length earlier)) sparql_results_size);
     [lia|]).
  - by exists earlier, w.
  - destruct (choice_returns results d Hne) as [result Hch]. rewrite Hch.
    pose proof (choice_elem _ _ _ Hch) as Hres.
    case_bool_decide as Hin; [by apply IH|].
    destruct (visit_ok result w) as (w' & -> & Hok'); [|done|].
    { rewrite Forall_forall in Hwf. by apply Hwf. }
    apply IH; [| |done].
    + apply NoDup_app. split; [done|]. split; [|apply NoDup_singleton].
      intros x Hx Hx'. apply list_elem_of_singleton in Hx'. by subst.
    + intros x Hx. apply elem_of_app in Hx as [Hx|Hx]; [by apply Hsub|].
      apply list_elem_of_singleton in Hx. by subst.
Qed.

(** C4.  The loop ends when as many rows were visited as the configured
    size of the result, not when every row of the result was visited.  For
    a result that has fewer rows than that, rows that have the four
    bindings and a readable store, the completion message is never
    printed and the process never ends: after any number of draws the loop
    is about to draw again. *)
Theorem short_result_never_completes results draws w :
  results ≠ [] ->
  Forall (fun r => exists d, extract_data r = Returns d) results ->
  store_ok (disk w) ->
  (Z.of_nat (length results) < sparql_results_size)%Z ->
  (exists earlier w',
     process_lexeme_data results draws w = Drawing earlier w'
     /\ earlier ⊆ results)
  /\ ~ completed (process_lexeme_data results draws w).
Proof.
  intros Hne Hwf Hok Hfew.
  assert (exists earlier w',
            process_lexeme_data results draws w = Drawing earlier w'
            /\ earlier ⊆ results) as (earlier & w' & Hrun & Hsub).
  { unfold process_lexeme_data.
    destruct (collect_words_ok results Hwf) as [words ->].
    apply sampling_loop_goes_on; try done.
    - apply NoDup_nil_2.
    - intros x Hx. by apply elem_of_nil in Hx. }
  split; [by exists earlier, w'|]. rewrite Hrun. by intros [].
Qed.

End Orchestrator.

(** * The orchestrator on the sample data *)

(** C4, for a result of one row and a configured size of two: the row is
    visited at the first draw and the loop goes on drawing. *)
Lemma short_result_never_completes_witness :
  (Z.of_nat (length [hus]) < 2)%Z
  /\ (exists earlier w',
        process_lexeme_data (cfg:=swedish 2) (env:=services [])
          [hus] [0; 0; 0] (fresh []) = Drawing earlier w'
        /\ earlier ⊆ [hus])
  /\ ~ completed (process_lexeme_data (cfg:=swedish 2) (env:=services [])
                    [hus] [0; 0; 0] (fresh [])).
Proof.
  assert (Z.of_nat (length [hus]) < 2)%Z as Hfew by reflexivity.
  split; [exact Hfew|].
  apply (short_result_never_completes (cfg:=swedish 2) (env:=services [])
           [hus] [0; 0; 0] (fresh [])).
  - discriminate.
  - repeat constructor. eexists. vm_compute. reflexivity.
  - exact I.
  - exact Hfew.
Defined.

(** C5, for a corpus search that finds sentences of 5, 2 and 8 words and an
    operator who would answer each question: nothing is asked and the
    three lines are still to be read. *)
Lemma corpus_batch_is_not_presented_witness :
  extract_data hus = Returns hus_data
  /\ get_records (environment:=corpus three_sentences [])
       (log (searching hus_data (fresh ["n"; "n"; "n"]))) hus_data
     = three_sentences
  /\ count_words <$> three_sentences.*1 = [5; 2; 8]
  /\ asked (log (process_result (cfg:=swedish 1)
                   (env:=corpus three_sentences [])
                   hus hus_data (fresh ["n"; "n"; "n"])).2) = []
  /\ stdin (process_result (cfg:=swedish 1) (env:=corpus three_sentences [])
              hus hus_data (fresh ["n"; "n"; "n"])).2 = ["n"; "n"; "n"].
Proof.
  assert (extract_data hus = Returns hus_data) as Hrow
    by (vm_compute; reflexivity).
  split; [exact Hrow|]. split; [reflexivity|]. split; [reflexivity|].
  destruct (corpus_batch_is_not_presented (cfg:=swedish 1)
              (env:=corpus three_sentences [])
              hus hus_data three_sentences (fresh ["n"; "n"; "n"])
              Hrow eq_refl) as (_ & Hasked & Hstdin & _).
  - discriminate.
  - split; [exact Hasked | exact Hstdin].
Defined.


